(** * Stock ingestion and retrieval pipelines: a shallow embedding

    This development models the two Python programs of the repository

    - [backend/project-1/pinecone_utils.py]: the checkpointed ingestion of
      stock descriptions into the vector index (module [Ingest]),
    - [backend/project-1/flask/app.py]: the [/explore] handler that turns a
      user query into a filtered similarity query and a context block
      (module [App]),

    and proves properties of them.

    Conventions.  Python values are terms of [pyval]; a [dict] is an
    association list in insertion order (keys are unique, as in Python).
    Strings are sequences of one-byte characters.  Code that may raise runs
    in the monad [M S], a state monad over [S] whose results are [Ok v] or
    [Err e]; state changes made before an exception is raised are kept, as
    in Python.  The services the programs talk to (market-data provider,
    embedding model, vector index, completion model, JSON decoder) are
    parameters: a [World] record of functions that may answer with an
    exception.  [exn] stands for instances of Python's [Exception]. *)

From stdpp Require Import base option list strings pretty gmap.
From Stdlib Require Import ZArith Ascii.


(** ** Python values *)

#[local] Unset Elimination Schemes.
Inductive pyval : Type :=
  | PNone
  | PBool (b : bool)
  | PInt (n : Z)
  | PFloat (mantissa exponent : Z)
  | PStr (s : string)
  | PList (l : list pyval)
  | PDict (d : list (string * pyval)).
#[local] Set Elimination Schemes.

Abbreviation dict := (list (string * pyval)).

Inductive exn : Type :=
  | KeyError (key : string)
  | TypeError (msg : string)
  | FileNotFoundError (path : string)
  | ExternalError (msg : string).

Inductive result (A : Type) : Type :=
  | Ok (a : A)
  | Err (e : exn).
Arguments Ok {A} a.
Arguments Err {A} e.

(** The double-quote character and the line feed. *)
Definition dq : string := String (ascii_of_nat 34) EmptyString.
Definition sq : string := String (ascii_of_nat 39) EmptyString.
Definition LF : ascii := ascii_of_nat 10.
Definition nl : string := String LF EmptyString.

(** [str(e)] as used by an f-string: a [KeyError] shows its key quoted. *)
Definition str_exn (e : exn) : string :=
  match e with
  | KeyError k => sq +:+ k +:+ sq
  | TypeError m => m
  | FileNotFoundError p => p
  | ExternalError m => m
  end.

(** [d.get(key, default)] and [d[key]] on a dict; the first binding of a key
    is the one a Python dict holds. *)
Fixpoint dict_lookup (key : string) (d : dict) : option pyval :=
  match d with
  | [] => None
  | (k, v) :: d' => if decide (k = key) then Some v else dict_lookup key d'
  end.

Definition dict_get (d : dict) (key : string) (dflt : pyval) : pyval :=
  default dflt (dict_lookup key d).

(** [v[key]] for a string key: only a dict can be subscripted by a string. *)
Definition getitem (v : pyval) (key : string) : result pyval :=
  match v with
  | PDict d =>
      match dict_lookup key d with
      | Some x => Ok x
      | None => Err (KeyError key)
      end
  | PNone => Err (TypeError "'NoneType' object is not subscriptable")
  | PBool _ => Err (TypeError "'bool' object is not subscriptable")
  | PInt _ => Err (TypeError "'int' object is not subscriptable")
  | PFloat _ _ => Err (TypeError "'float' object is not subscriptable")
  | PStr _ => Err (TypeError "string indices must be integers")
  | PList _ => Err (TypeError "list indices must be integers or slices, not str")
  end.

(** ** Python string helpers *)

(** ASCII characters for which [str.isspace] holds. *)
Definition is_space (c : ascii) : bool :=
  let n := nat_of_ascii c in
  ((9 <=? n)%nat && (n <=? 13)%nat) || ((28 <=? n)%nat && (n <=? 32)%nat).

Fixpoint lstrip (s : string) : string :=
  match s with
  | EmptyString => EmptyString
  | String c s' => if is_space c then lstrip s' else s
  end.

Fixpoint rstrip (s : string) : string :=
  match s with
  | EmptyString => EmptyString
  | String c s' =>
      match rstrip s' with
      | EmptyString => if is_space c then EmptyString else String c EmptyString
      | r => String c r
      end
  end.

Definition strip (s : string) : string := rstrip (lstrip s).

(** The lines of a text file as iteration over the file yields them: each
    keeps its terminating line feed, the last one may lack it. *)
Fixpoint readlines (s : string) : list string :=
  match s with
  | EmptyString => []
  | String c s' =>
      if decide (c = LF) then String c EmptyString :: readlines s'
      else match readlines s' with
           | [] => [String c EmptyString]
           | l :: ls => String c l :: ls
           end
  end.

(** [sep.join(parts)]. *)
Fixpoint join (sep : string) (parts : list string) : string :=
  match parts with
  | [] => EmptyString
  | [p] => p
  | p :: ps => p +:+ sep +:+ join sep ps
  end.

(** ** The exception-and-state monad *)

Definition M (S A : Type) : Type := S → result A * S.

Global Instance M_ret {S} : MRet (M S) := λ A x s, (Ok x, s).
Global Instance M_bind {S} : MBind (M S) := λ A B f m s,
  match m s with
  | (Ok x, s') => f x s'
  | (Err e, s') => (Err e, s')
  end.

Definition raise {S A} (e : exn) : M S A := λ s, (Err e, s).
Definition lift_result {S A} (r : result A) : M S A := λ s, (r, s).
Definition get_state {S} : M S S := λ s, (Ok s, s).
Definition modify {S} (f : S → S) : M S unit := λ s, (Ok tt, f s).

(** [try: body except Exception as e: handler e]. *)
Definition try_except {S A} (body : M S A) (handler : exn → M S A) : M S A :=
  λ s, match body s with
       | (Ok x, s') => (Ok x, s')
       | (Err e, s') => handler e s'
       end.

(** [for x in xs: body x]. *)
Fixpoint for_each {S A} (xs : list A) (body : A → M S unit) : M S unit :=
  match xs with
  | [] => mret tt
  | x :: xs' => body x;; for_each xs' body
  end.

(** [[f x for x in xs]] where [f] has effects. *)
Fixpoint map_M {S A B} (f : A → M S B) (xs : list A) : M S (list B) :=
  match xs with
  | [] => mret []
  | x :: xs' => y ← f x; ys ← map_M f xs'; mret (y :: ys)
  end.

(** ** [pinecone_utils.py]: class [PineconeUtils]

    [get_tickers] and the script at the end of the file, which only feed
    [parallel_process_stocks] with the list of symbols, are left out. *)

Module Ingest.

(** Calls to the outside world, in the order they are made. *)
Inductive call : Type :=
  | CallVectorStore (index_name : string)
      (* PineconeVectorStore(index_name=.., embedding=HuggingFaceEmbeddings()) *)
  | CallTickerInfo (symbol : string)
      (* yf.Ticker(symbol).info *)
  | CallFromDocuments (page_content : pyval) (metadata : dict)
                      (index_name namespace : string).
      (* PineconeVectorStore.from_documents([Document(..)], embedding, ..):
         builds the document, embeds its text and upserts it *)

(** The answers of the outside world.  An answer may depend on the calls
    made before it, so a symbol that fails once may succeed later. *)
Record World : Type := {
  vector_store : list call → string → result unit;
  ticker_info : list call → string → result dict;
  from_documents : list call → pyval → dict → string → string → result unit;
}.

(** The [PineconeUtils] object ([self]) together with what it acts on: the
    files of the working directory, the external calls made so far and the
    lines printed so far.  Opening a file for appending creates it and
    cannot fail; reading a missing file raises [FileNotFoundError]. *)
Record state : Type := {
  index_name : string;
  namespace : string;
  successful_tickers : list string;
  unsuccessful_tickers : list string;
  fs : gmap string string;
  calls : list call;
  stdout : list string;
}.

Definition set_names (i n : string) (s : state) : state :=
  {| index_name := i; namespace := n;
     successful_tickers := successful_tickers s;
     unsuccessful_tickers := unsuccessful_tickers s;
     fs := fs s; calls := calls s; stdout := stdout s |}.
Definition set_successful_tickers (l : list string) (s : state) : state :=
  {| index_name := index_name s; namespace := namespace s;
     successful_tickers := l;
     unsuccessful_tickers := unsuccessful_tickers s;
     fs := fs s; calls := calls s; stdout := stdout s |}.
Definition set_unsuccessful_tickers (l : list string) (s : state) : state :=
  {| index_name := index_name s; namespace := namespace s;
     successful_tickers := successful_tickers s;
     unsuccessful_tickers := l;
     fs := fs s; calls := calls s; stdout := stdout s |}.
Definition set_fs (f : gmap string string) (s : state) : state :=
  {| index_name := index_name s; namespace := namespace s;
     successful_tickers := successful_tickers s;
     unsuccessful_tickers := unsuccessful_tickers s;
     fs := f; calls := calls s; stdout := stdout s |}.
Definition set_calls (c : list call) (s : state) : state :=
  {| index_name := index_name s; namespace := namespace s;
     successful_tickers := successful_tickers s;
     unsuccessful_tickers := unsuccessful_tickers s;
     fs := fs s; calls := c; stdout := stdout s |}.
Definition set_stdout (o : list string) (s : state) : state :=
  {| index_name := index_name s; namespace := namespace s;
     successful_tickers := successful_tickers s;
     unsuccessful_tickers := unsuccessful_tickers s;
     fs := fs s; calls := calls s; stdout := o |}.

(** [print(line)]. *)
Definition print (line : string) : M state unit :=
  modify (λ s, set_stdout (stdout s ++ [line]) s).

(** An external call: the world answers from the calls made so far, and
    the call is recorded whether it succeeds or raises. *)
Definition external {A} (c : call) (answer : list call → result A) : M state A :=
  λ s, (answer (calls s), set_calls (calls s ++ [c]) s).

(** [with open(path, 'r') as f]: the text of the file as the text layer
    presents it, on a platform whose line separator is the line feed. *)
Definition open_read (path : string) : M state string :=
  λ s, match fs s !! path with
       | Some content => (Ok content, s)
       | None => (Err (FileNotFoundError path), s)
       end.

(** [with open(path, 'a') as f: f.write(data)]. *)
Definition open_append (path data : string) : M state unit :=
  modify (λ s, set_fs (<[path := default EmptyString (fs s !! path) +:+ data]> (fs s)) s).

(** [[line.strip() for line in f if line.strip()]]. *)
Definition stripped_lines (content : string) : list string :=
  strip <$> filter (λ line, strip line ≠ EmptyString) (readlines content).

Definition NA : pyval := PStr "Information not available".

(** The dict literal built by [_get_stock_info] from the provider's record. *)
Definition stock_properties (stock_info : dict) : dict := [
  ("Ticker", dict_get stock_info "symbol" NA);
  ("Name", dict_get stock_info "longName" NA);
  ("Business Summary", dict_get stock_info "longBusinessSummary" PNone);
  ("City", dict_get stock_info "city" NA);
  ("State", dict_get stock_info "state" NA);
  ("Country", dict_get stock_info "country" NA);
  ("Industry", dict_get stock_info "industry" NA);
  ("Sector", dict_get stock_info "sector" NA);
  ("Market Cap", dict_get stock_info "marketCap" NA);
  ("Volume", dict_get stock_info "averageVolume" NA);
  ("PE Ratio", dict_get stock_info "trailingPE" NA);
  ("Price", dict_get stock_info "currentPrice" NA);
  ("Analyst Recommendation", dict_get stock_info "recommendationKey" NA)
].

Section WithWorld.

Variable w : World.

Definition _load_history : M state (list string * list string) :=
  successful_tickers ←
    try_except
      (content ← open_read "successful_tickers.txt";
       let successful_tickers := stripped_lines content in
       print ("LOADED " +:+ pretty (length successful_tickers) +:+ " SUCCESSFUL TICKERS");;
       mret successful_tickers)
      (λ e, match e with
            | FileNotFoundError _ =>
                print "NO EXISTING SUCCESSFUL TICKERS FILE FOUND";;
                mret []
            | _ => raise e
            end);
  unsuccessful_tickers ←
    try_except
      (content ← open_read "unsuccessful_tickers.txt";
       let unsuccessful_tickers := stripped_lines content in
       print ("LOADED " +:+ pretty (length unsuccessful_tickers) +:+ " UNSUCCESSFUL TICKERS");;
       mret unsuccessful_tickers)
      (λ e, match e with
            | FileNotFoundError _ =>
                print "NO EXISTING UNSUCCESSFUL TICKERS FILE FOUND";;
                mret []
            | _ => raise e
            end);
  mret (successful_tickers, unsuccessful_tickers).

Definition __init__ (index_name namespace : string) : M state unit :=
  print "INITIALIZING...";;
  modify (set_names index_name namespace);;
  external (CallVectorStore index_name) (λ h, vector_store w h index_name);;
  '(successful, unsuccessful) ← _load_history;
  modify (set_successful_tickers successful);;
  modify (set_unsuccessful_tickers unsuccessful);;
  print "COMPLETED INITIALIZATION...".

Definition _get_stock_info (symbol : string) : M state dict :=
  stock_info ← external (CallTickerInfo symbol) (λ h, ticker_info w h symbol);
  let properties := stock_properties stock_info in
  mret properties.

Definition _process_stock (stock_ticker : string) : M state string :=
  self ← get_state;
  if decide (stock_ticker ∈ successful_tickers self) then
    mret ("Already processed " +:+ stock_ticker)
  else
    try_except
      (stock_data ← _get_stock_info stock_ticker;
       stock_description ← lift_result (getitem (PDict stock_data) "Business Summary");
       external
         (CallFromDocuments stock_description stock_data
                            (index_name self) (namespace self))
         (λ h, from_documents w h stock_description stock_data
                              (index_name self) (namespace self));;
       open_append "successful_tickers.txt" (stock_ticker +:+ nl);;
       modify (λ s, set_successful_tickers (successful_tickers s ++ [stock_ticker]) s);;
       mret ("Processed " +:+ stock_ticker +:+ " successfully"))
      (λ e,
         open_append "unsuccessful_tickers.txt" (stock_ticker +:+ nl);;
         modify (λ s, set_unsuccessful_tickers (unsuccessful_tickers s ++ [stock_ticker]) s);;
         mret ("ERROR processing " +:+ stock_ticker +:+ ": " +:+ str_exn e)).

(** [executor.submit(task)]: the pool is modelled by running each task
    to completion when it is submitted; the future holds its outcome. *)
Definition submit {A} (task : M state A) : M state (result A) :=
  λ s, let '(r, s') := task s in (Ok r, s').

(** [future.result()]. *)
Definition future_result {A} (future : result A) : M state A :=
  lift_result future.

Definition parallel_process_stocks (tickers : list string) (max_workers : nat)
  : M state unit :=
  future_to_ticker ←
    map_M (λ ticker, future ← submit (_process_stock ticker);
                     mret (future, ticker)) tickers;
  for_each future_to_ticker (λ '(future, ticker),
    try_except
      (result ← future_result future;
       print result;;
       if String.prefix "ERROR" result
       then print ("ERROR ENCOUNTERED IN " +:+ ticker +:+ ": " +:+ result)
       else mret tt)
      (λ exc, print (ticker +:+ " GENERATED AN EXCEPTION: " +:+ str_exn exc))).

End WithWorld.

End Ingest.


(** ** [flask/app.py]: the [/explore] handler *)

Module App.

Definition INDEX_NAME : string := "stocks".
Definition NAMESPACE : string := "stock-descriptions".

Definition tab : string := String (ascii_of_nat 9) EmptyString.

(** Calls to the outside world, in the order they are made. *)
Inductive call : Type :=
  | CallCompletion (model : string) (content : string)
      (* groq_client.chat.completions.create(model, one user message,
         response_format json_object) *)
  | CallIndex (name : string)
      (* pinecone_client.Index(name) *)
  | CallEncode (model_name : string) (text : pyval)
      (* SentenceTransformer(model_name).encode(text).tolist() *)
  | CallQuery (index namespace : string) (vector filter : pyval)
              (top_k : nat) (include_metadata : bool).
      (* pinecone_index.query(namespace, vector, filter, top_k, include_metadata) *)

(** The answers of the outside world, and the two Python built-ins that are
    not modelled: [json.loads], and [str] of a value that is not a string. *)
Record World : Type := {
  completion : list call → string → string → result string;
      (* response.choices[0].message.content *)
  index : list call → string → result unit;
  encode : list call → string → pyval → result pyval;
  query : list call → string → string → pyval → pyval → nat → bool → result pyval;
  json_loads : string → result pyval;
  py_str : pyval → string;
}.

(** The calls made and the values printed so far. *)
Record state : Type := {
  calls : list call;
  stdout : list pyval;
}.

Definition print (v : pyval) : M state unit :=
  modify (λ s, {| calls := calls s; stdout := stdout s ++ [v] |}).

Definition external {A} (c : call) (answer : list call → result A) : M state A :=
  λ s, (answer (calls s), {| calls := calls s ++ [c]; stdout := stdout s |}).

(** [for item in v]: a list yields its items, a dict its keys, a string its
    characters; nothing else modelled here is iterable. *)
Definition iterate (v : pyval) : result (list pyval) :=
  match v with
  | PList l => Ok l
  | PDict d => Ok ((λ kv, PStr (fst kv)) <$> d)
  | PStr s => Ok ((λ c, PStr (String c EmptyString)) <$> String.list_ascii_of_string s)
  | _ => Err (TypeError "object is not iterable")
  end.

(** [sep.join(items)]: every item must be a string. *)
Fixpoint strings_of (items : list pyval) : result (list string) :=
  match items with
  | [] => Ok []
  | PStr s :: rest =>
      match strings_of rest with
      | Ok ss => Ok (s :: ss)
      | Err e => Err e
      end
  | _ :: _ => Err (TypeError "sequence item: expected str instance")
  end.

Definition str_join (sep : string) (items : list pyval) : result string :=
  match strings_of items with
  | Ok ss => Ok (join sep ss)
  | Err e => Err e
  end.

(** The extraction prompt, the f-string of [explore]: the text before and
    after the interpolated [user_query]. *)
Definition explore_prompt_head : string :=
  nl +:+
  "    You are a pinecone vector database expert. I have indexed stock data into the vector database in the following structure:" +:+ nl +:+
  nl +:+
  "    metadata: {" +:+ nl +:+
  "        " +:+ dq +:+ "Analyst Recommendation" +:+ dq +:+ ": " +:+ dq +:+ "string" +:+ dq +:+ nl +:+
  "        " +:+ dq +:+ "Business Summary" +:+ dq +:+ ": " +:+ dq +:+ "string" +:+ dq +:+ "," +:+ nl +:+
  "        " +:+ dq +:+ "City" +:+ dq +:+ ": " +:+ dq +:+ "string" +:+ dq +:+ "," +:+ nl +:+
  "        " +:+ dq +:+ "Country" +:+ dq +:+ ": " +:+ dq +:+ "string" +:+ dq +:+ "," +:+ nl +:+
  "        " +:+ dq +:+ "Industry" +:+ dq +:+ ": " +:+ dq +:+ "string" +:+ dq +:+ "," +:+ nl +:+
  "        " +:+ dq +:+ "Market Cap" +:+ dq +:+ ": " +:+ dq +:+ "number" +:+ dq +:+ "," +:+ nl +:+
  "        " +:+ dq +:+ "Name" +:+ dq +:+ ": " +:+ dq +:+ "string" +:+ dq +:+ "," +:+ nl +:+
  "        " +:+ dq +:+ "PE Ratio" +:+ dq +:+ ": " +:+ dq +:+ "number" +:+ dq +:+ "," +:+ nl +:+
  "        " +:+ dq +:+ "Price" +:+ dq +:+ ": " +:+ dq +:+ "number" +:+ dq +:+ "," +:+ nl +:+
  "        " +:+ dq +:+ "Sector" +:+ dq +:+ ": " +:+ dq +:+ "string" +:+ dq +:+ "," +:+ nl +:+
  "        " +:+ dq +:+ "State" +:+ dq +:+ ": " +:+ dq +:+ "string" +:+ dq +:+ "," +:+ nl +:+
  "        " +:+ dq +:+ "Ticker" +:+ dq +:+ ": " +:+ dq +:+ "string" +:+ dq +:+ "," +:+ nl +:+
  "        " +:+ dq +:+ "Volume" +:+ dq +:+ ": " +:+ dq +:+ "number" +:+ dq +:+ "," +:+ nl +:+
  "    }" +:+ nl +:+
  nl +:+
  "    For " +:+ dq +:+ "Analyst Recommendation" +:+ dq +:+ ", the values can be " +:+ dq +:+ "buy" +:+ dq +:+ ", " +:+ dq +:+ "hold" +:+ dq +:+ ", or " +:+ dq +:+ "sell" +:+ dq +:+ "." +:+ nl +:+
  "    For " +:+ dq +:+ "Sector" +:+ dq +:+ ", the values can be " +:+ dq +:+ "Communication Services" +:+ dq +:+ ", " +:+ dq +:+ "Consumer Discretionary" +:+ dq +:+ ", " +:+ dq +:+ "Consumer Staples" +:+ dq +:+ ", " +:+ dq +:+ "Energy" +:+ dq +:+ ", " +:+ dq +:+ "Financials" +:+ dq +:+ ", " +:+ dq +:+ "Healthcare" +:+ dq +:+ ", " +:+ dq +:+ "Industrials" +:+ dq +:+ ", " +:+ dq +:+ "Technology" +:+ dq +:+ ", " +:+ dq +:+ "Materials" +:+ dq +:+ ", " +:+ dq +:+ "Real Estate" +:+ dq +:+ ", " +:+ dq +:+ "Utilities" +:+ dq +:+ "." +:+ nl +:+
  "    For " +:+ dq +:+ "State" +:+ dq +:+ ", the values are the 2-letter codes for the states in the United States." +:+ nl +:+
  "    For " +:+ dq +:+ "City" +:+ dq +:+ ", the values are the names of cities." +:+ nl +:+
  "    For " +:+ dq +:+ "Country" +:+ dq +:+ ", the values are the names of countries." +:+ nl +:+
  nl +:+
  "    Now given the following user query:" +:+ nl +:+
  nl +:+
  "    <USER QUERY>" +:+ nl +:+
  "    ".

Definition explore_prompt_tail : string :=
  nl +:+
  "    </USER QUERY>" +:+ nl +:+
  nl +:+
  "    Extract the information from the user query that can be used to filter the vector database by metadata. " +:+ nl +:+
  nl +:+
  "    I want you to respond in the following JSON format:" +:+ nl +:+
  nl +:+
  "    <JSON FORMAT>" +:+ nl +:+
  "    {" +:+ nl +:+
  "        " +:+ dq +:+ "filter" +:+ dq +:+ ": {" +:+ nl +:+
  "            " +:+ dq +:+ "Market Cap" +:+ dq +:+ ": {" +:+ nl +:+
  "                " +:+ dq +:+ "$gte" +:+ dq +:+ ": 10_000_000_000" +:+ nl +:+
  "            }," +:+ nl +:+
  "        }," +:+ nl +:+
  "        " +:+ dq +:+ "question" +:+ dq +:+ ": <the rest of the user query that cannot be used to filter the vector database using metadata>" +:+ nl +:+
  "    }" +:+ nl +:+
  nl +:+
  "    OR" +:+ nl +:+
  nl +:+
  "    {" +:+ nl +:+
  "        " +:+ dq +:+ "filter" +:+ dq +:+ ": {" +:+ nl +:+
  "            " +:+ dq +:+ "$and" +:+ dq +:+ ": [" +:+ nl +:+
  "                {" +:+ nl +:+
  "                    " +:+ dq +:+ "Market Cap" +:+ dq +:+ ": {" +:+ nl +:+
  "                        " +:+ dq +:+ "$gte" +:+ dq +:+ ": 10_000_000_000" +:+ nl +:+
  "                    }, " +:+ nl +:+
  "                }," +:+ nl +:+
  "                {" +:+ nl +:+
  "                    " +:+ dq +:+ "Sector" +:+ dq +:+ ": {" +:+ nl +:+
  "                        " +:+ dq +:+ "$eq" +:+ dq +:+ ": " +:+ dq +:+ "Technology" +:+ dq +:+ nl +:+
  "                    }," +:+ nl +:+
  "                }," +:+ nl +:+
  "            ]" +:+ nl +:+
  "        }," +:+ nl +:+
  "        " +:+ dq +:+ "question" +:+ dq +:+ ": <the rest of the user query that cannot be used to filter the vector database using metadata. It should be a question that can be used to query the vector database based on embeddings>" +:+ nl +:+
  "    }" +:+ nl +:+
  "    </JSON FORMAT>" +:+ nl +:+
  nl +:+
  "    Note that for the filter you should only use the following operators:" +:+ nl +:+
  nl +:+
  "    Filter" +:+ tab +:+ "        Example" +:+ tab +:+ "                                                Description" +:+ nl +:+
  "    $eq" +:+ tab +:+ "            {" +:+ dq +:+ "genre" +:+ dq +:+ ": {" +:+ dq +:+ "$eq" +:+ dq +:+ ": " +:+ dq +:+ "documentary" +:+ dq +:+ "}}" +:+ tab +:+ "                Matches vectors with the genre “documentary”." +:+ nl +:+
  "    $ne" +:+ tab +:+ "            {" +:+ dq +:+ "genre" +:+ dq +:+ ": {" +:+ dq +:+ "$ne" +:+ dq +:+ ": " +:+ dq +:+ "drama" +:+ dq +:+ "}}" +:+ tab +:+ "                        Matches vectors with a genre other than “drama”." +:+ nl +:+
  "    $gt" +:+ tab +:+ "            {" +:+ dq +:+ "year" +:+ dq +:+ ": {" +:+ dq +:+ "$gt" +:+ dq +:+ ": 2019}}" +:+ tab +:+ "                            Matches vectors with a year greater than 2019." +:+ nl +:+
  "    $gte" +:+ tab +:+ "        {" +:+ dq +:+ "year" +:+ dq +:+ ": {" +:+ dq +:+ "$gte" +:+ dq +:+ ": 2020}}" +:+ tab +:+ "                        Matches vectors with a year greater than or equal to 2020." +:+ nl +:+
  "    $lt" +:+ tab +:+ "            {" +:+ dq +:+ "year" +:+ dq +:+ ": {" +:+ dq +:+ "$lt" +:+ dq +:+ ": 2020}}" +:+ tab +:+ "                            Matches vectors with a year less than 2020." +:+ nl +:+
  "    $lte" +:+ tab +:+ "        {" +:+ dq +:+ "year" +:+ dq +:+ ": {" +:+ dq +:+ "$lte" +:+ dq +:+ ": 2020}}" +:+ tab +:+ "                        Matches vectors with a year less than or equal to 2020." +:+ nl +:+
  "    $in" +:+ tab +:+ "            {" +:+ dq +:+ "genre" +:+ dq +:+ ": {" +:+ dq +:+ "$in" +:+ dq +:+ ": [" +:+ dq +:+ "comedy" +:+ dq +:+ ", " +:+ dq +:+ "documentary" +:+ dq +:+ "]}}" +:+ tab +:+ "    Matches vectors with the genre “comedy” or “documentary”." +:+ nl +:+
  "    $nin" +:+ tab +:+ "        {" +:+ dq +:+ "genre" +:+ dq +:+ ": {" +:+ dq +:+ "$nin" +:+ dq +:+ ": [" +:+ dq +:+ "comedy" +:+ dq +:+ ", " +:+ dq +:+ "documentary" +:+ dq +:+ "]}}" +:+ tab +:+ "    Matches vectors with a genre other than “comedy” or “documentary”." +:+ nl +:+
  "    $exists" +:+ tab +:+ "        {" +:+ dq +:+ "genre" +:+ dq +:+ ": {" +:+ dq +:+ "$exists" +:+ dq +:+ ": true}}" +:+ tab +:+ "                    Matches vectors with the “genre” field." +:+ nl +:+
  nl +:+
  "    Operator" +:+ tab +:+ "    Example" +:+ tab +:+ "                                                                        Description" +:+ nl +:+
  "    $and" +:+ tab +:+ "        {" +:+ dq +:+ "$and" +:+ dq +:+ ": [{" +:+ dq +:+ "genre" +:+ dq +:+ ": {" +:+ dq +:+ "$eq" +:+ dq +:+ ": " +:+ dq +:+ "drama" +:+ dq +:+ "}, {" +:+ dq +:+ "year" +:+ dq +:+ ": {" +:+ dq +:+ "$gte" +:+ dq +:+ ": 2020" +:+ dq +:+ "}}]}" +:+ tab +:+ "    Matches vectors with the genre “drama” and a year greater than or equal to 2020." +:+ nl +:+
  "    $or" +:+ tab +:+ "            {" +:+ dq +:+ "$or" +:+ dq +:+ ": [{" +:+ dq +:+ "genre" +:+ dq +:+ ": {" +:+ dq +:+ "$eq" +:+ dq +:+ ": " +:+ dq +:+ "drama" +:+ dq +:+ "}, {" +:+ dq +:+ "year" +:+ dq +:+ ": {" +:+ dq +:+ "$gte" +:+ dq +:+ ": 2020" +:+ dq +:+ "}}]}" +:+ tab +:+ "    Matches vectors with the genre “drama” or a year greater than or equal to 2020." +:+ nl +:+
  nl +:+
  "    If you aren't sure about the filter, you should not include it in the JSON. " +:+ nl +:+
  nl +:+
  "    Please consider the all the above information when responding, and take your time in understanding the user query. If necessary break down the problem into smaller steps." +:+ nl +:+
  "    ".

Definition explore_prompt (user_query : string) : string :=
  explore_prompt_head +:+ user_query +:+ explore_prompt_tail.

(** The question block, the f-string of [get_question]. *)
Definition question_prompt_head : string :=
  nl +:+
  "    MY QUESTION:" +:+ nl +:+
  nl +:+
  "    Using ONLY the context provided, answer the following question:" +:+ nl +:+
  "    ".

Definition question_prompt_tail : string :=
  nl +:+
  nl +:+
  "    You should mention all the companies that are mentioned in the context. In your answer, I expect to see at least the company name, ticker, and the reason why you think it is relevant to the question." +:+ nl +:+
  nl +:+
  "    Never make reference to the context in your answer. For example, do not say " +:+ dq +:+ "Based on the context provided, I can tell you that..." +:+ dq +:+ nl +:+
  nl +:+
  "    If there is not enough information in the context to answer the question, you should say " +:+ dq +:+ "My apologies, but I do not have enough information to answer that question." +:+ dq +:+ nl +:+
  "    " +:+ nl +:+
  "    ".

Definition question_prompt (question : string) : string :=
  question_prompt_head +:+ question +:+ question_prompt_tail.

Section WithWorld.

Variable w : World.

(** [{v}] inside an f-string. *)
Definition format_value (v : pyval) : string :=
  match v with
  | PStr s => s
  | _ => py_str w v
  end.

Definition get_huggingface_embeddings (text : pyval) (model_name : string) : M state pyval :=
  external (CallEncode model_name text) (λ h, encode w h model_name text).

Definition get_augmented_context (formatted_response : pyval) : M state string :=
  external (CallIndex INDEX_NAME) (λ h, index w h INDEX_NAME);;
  filter ← lift_result (getitem formatted_response "filter");
  print filter;;
  question ← lift_result (getitem formatted_response "question");
  question_embeddings ←
    get_huggingface_embeddings question "sentence-transformers/all-mpnet-base-v2";
  top_matches ←
    external (CallQuery INDEX_NAME NAMESPACE question_embeddings filter 10 true)
             (λ h, query w h INDEX_NAME NAMESPACE question_embeddings filter 10 true);
  print top_matches;;
  matches ← lift_result (getitem top_matches "matches");
  items ← lift_result (iterate matches);
  context ← map_M (λ item, metadata ← lift_result (getitem item "metadata");
                           lift_result (getitem metadata "text")) items;
  joined ← lift_result (str_join (nl +:+ nl +:+ "-------" +:+ nl +:+ nl) (take 10 context));
  let augmented_context :=
    "<CONTEXT>" +:+ nl +:+ joined +:+ nl +:+ "-------" +:+ nl +:+ "</CONTEXT>"
      +:+ nl +:+ nl +:+ nl +:+ nl in
  mret augmented_context.

Definition get_question (formatted_response : pyval) : M state string :=
  question ← lift_result (getitem formatted_response "question");
  let augmented_question := question_prompt (format_value question) in
  mret augmented_question.

Definition generate_prompt (formatted_response : pyval) : M state string :=
  augmented_context ← get_augmented_context formatted_response;
  augmented_question ← get_question formatted_response;
  let augmented_query := augmented_context +:+ augmented_question in
  mret augmented_query.

(** The handler; [data] is [request.json], the result is the body and the
    status of the response. *)
Definition explore (data : pyval) : M state (pyval * nat) :=
  user_query ← lift_result (getitem data "user_query");
  let prompt := explore_prompt (format_value user_query) in
  content ← external (CallCompletion "llama3-70b-8192" prompt)
                     (λ h, completion w h "llama3-70b-8192" prompt);
  formatted_response ← lift_result (json_loads w content);
  prompt ← generate_prompt formatted_response;
  mret (PDict [("prompt", PStr prompt)], 200%nat).

End WithWorld.

End App.

(** ** [pinecone_utils.py]: the download of the symbols and the script

    [get_tickers] and the four statements at the end of the file.  The
    download service and the JSON codec are parameters of their own. *)

Module Script.

Import Ingest.

Definition TICKERS_URL : string :=
  "https://raw.githubusercontent.com/team-headstart/Financial-Analysis-and-Automation-with-LLMs/main/company_tickers.json".

(** What [requests.get] returns, as far as the code looks at it. *)
Record response : Type := {
  status_code : nat;
  content : string;
}.

Record Net : Type := {
  requests_get : string → result response;
  json_loads : string → result pyval;
      (* json.loads(response.content.decode('utf-8')) *)
  json_dumps : pyval → string;
      (* the text json.dump(value, file, indent=4) writes *)
}.

(** [with open(path, 'w') as f: f.write(data)]: the file is replaced. *)
Definition open_write (path data : string) : M state unit :=
  modify (λ s, set_fs (<[path := data]> (fs s)) s).

(** How a statement of the script ends.  [AttributeError] is not among the
    exceptions the functions above deal with, so it has a case of its own;
    [NotModelled] marks a run that leaves the model: [_process_stock] is
    modelled on strings only. *)
Inductive outcome (A : Type) : Type :=
  | Finished (a : A)
  | Uncaught (e : exn)
  | UncaughtAttributeError (msg : string)
  | NotModelled.
Arguments Finished {A} a.
Arguments Uncaught {A} e.
Arguments UncaughtAttributeError {A} msg.
Arguments NotModelled {A}.

Definition type_name (v : pyval) : string :=
  match v with
  | PNone => "NoneType"
  | PBool _ => "bool"
  | PInt _ => "int"
  | PFloat _ _ => "float"
  | PStr _ => "str"
  | PList _ => "list"
  | PDict _ => "dict"
  end.

(** [[tickers[num]["ticker"] for num in nums]]. *)
Fixpoint ticker_column (tickers : pyval) (nums : list string) : result (list pyval) :=
  match nums with
  | [] => Ok []
  | num :: rest =>
      match getitem tickers num with
      | Err e => Err e
      | Ok row =>
          match getitem row "ticker" with
          | Err e => Err e
          | Ok ticker =>
              match ticker_column tickers rest with
              | Ok column => Ok (ticker :: column)
              | Err e => Err e
              end
          end
      end
  end.

(** [[tickers[num]["ticker"] for num in tickers.keys()]]: only a dict has
    [keys]. *)
Definition tickers_to_process (tickers : pyval) : outcome (list pyval) :=
  match tickers with
  | PDict d =>
      match ticker_column tickers (fst <$> d) with
      | Ok column => Finished column
      | Err e => Uncaught e
      end
  | _ => UncaughtAttributeError
           (sq +:+ type_name tickers +:+ sq +:+ " object has no attribute 'keys'")
  end.

(** The symbols of a column of strings. *)
Fixpoint symbols_of (column : list pyval) : option (list string) :=
  match column with
  | [] => Some []
  | PStr symbol :: rest =>
      match symbols_of rest with
      | Some symbols => Some (symbol :: symbols)
      | None => None
      end
  | _ :: _ => None
  end.

Section WithWorld.

Variable w : World.
Variable net : Net.

Definition get_tickers : M state pyval :=
  let url := TICKERS_URL in
  response ← lift_result (requests_get net url);
  if decide (status_code response = 200%nat) then
    company_tickers ← lift_result (json_loads net (content response));
    open_write "company_tickers.json" (json_dumps net company_tickers);;
    print "FILE DOWNLOADED SUCCESSFULLY AND SAVED AS 'COMPANY_TICKERS.JSON'";;
    mret company_tickers
  else
    print ("FAILED TO DOWNLOAD FILE. STATUS CODE: " +:+ pretty (status_code response));;
    mret PNone.

(** The script: build the object, download the symbols, process them with
    four workers. *)
Definition main (s : state) : outcome unit * state :=
  match __init__ w "stocks" "stock-descriptions" s with
  | (Err e, s1) => (Uncaught e, s1)
  | (Ok _, s1) =>
      match get_tickers s1 with
      | (Err e, s2) => (Uncaught e, s2)
      | (Ok tickers, s2) =>
          match tickers_to_process tickers with
          | Finished column =>
              match symbols_of column with
              | Some symbols =>
                  match parallel_process_stocks w symbols 4 s2 with
                  | (Ok _, s3) => (Finished tt, s3)
                  | (Err e, s3) => (Uncaught e, s3)
                  end
              | None => (NotModelled, s2)
              end
          | Uncaught e => (Uncaught e, s2)
          | UncaughtAttributeError msg => (UncaughtAttributeError msg, s2)
          | NotModelled => (NotModelled, s2)
          end
      end
  end.

End WithWorld.

End Script.

(** * Vocabulary of the statements *)

(** A ticker symbol as the log format expects it: not empty, and made of
    ASCII characters other than white space, so that it is a line of its own
    once written. *)
Definition is_ticker_char (c : ascii) : bool :=
  negb (is_space c) && (nat_of_ascii c <? 128)%nat.

Definition is_ticker (t : string) : bool :=
  negb (bool_decide (t = EmptyString))
  && forallb is_ticker_char (String.list_ascii_of_string t).

(** A log text that is empty or ends with a line feed: appending to it
    starts a new line. *)
Fixpoint ends_lines (c : string) : bool :=
  match c with
  | EmptyString => true
  | String a c' =>
      match c' with
      | EmptyString => bool_decide (a = LF)
      | String _ _ => ends_lines c'
      end
  end.

(** The text [_process_stock] has written when it logged the symbols [ts]. *)
Definition log_text (ts : list string) : string :=
  foldr (λ t acc, t +:+ nl +:+ acc) EmptyString ts.

Section IngestVocabulary.

Import Ingest.

(** The state after an external call [c] has been recorded. *)
Definition with_call (c : call) (s : state) : state :=
  set_calls (calls s ++ [c]) s.

(** The state after [line] has been appended to the file [path]. *)
Definition with_line (path line : string) (s : state) : state :=
  set_fs (<[path := default EmptyString (fs s !! path) +:+ line]> (fs s)) s.

(** The two ways [_process_stock] records an outcome: the log file first,
    then the list in memory. *)
Definition with_success (t : string) (s : state) : state :=
  let s' := with_line "successful_tickers.txt" (t +:+ nl) s in
  set_successful_tickers (successful_tickers s' ++ [t]) s'.

Definition with_failure (t : string) (s : state) : state :=
  let s' := with_line "unsuccessful_tickers.txt" (t +:+ nl) s in
  set_unsuccessful_tickers (unsuccessful_tickers s' ++ [t]) s'.

(** What the world answers to the work on symbol [t] started in state [s]:
    the provider's record and the result of the upsert, or the exception
    that ends the attempt. *)
Inductive attempt_result : Type :=
  | FetchRaises (e : exn)
  | UpsertRaises (info : dict) (e : exn)
  | Stored (info : dict).

Definition attempt (w : World) (s : state) (t : string) : attempt_result :=
  match ticker_info w (calls s) t with
  | Err e => FetchRaises e
  | Ok info =>
      let facts := stock_properties info in
      match from_documents w (calls s ++ [CallTickerInfo t])
              (dict_get info "longBusinessSummary" PNone) facts
              (index_name s) (namespace s) with
      | Err e => UpsertRaises info e
      | Ok _ => Stored info
      end
  end.

(** The upsert call made for symbol data [info] in state [s]. *)
Definition upsert_call (s : state) (info : dict) : call :=
  CallFromDocuments (dict_get info "longBusinessSummary" PNone)
                    (stock_properties info) (index_name s) (namespace s).

(** A sequence of [_process_stock] calls, one after the other. *)
Definition process_all (w : World) (tickers : list string) (s : state) : state :=
  foldl (λ s t, snd (_process_stock w t s)) s tickers.



(** A world and a state to run the model on: the provider knows every
    symbol except those starting with [X], the index accepts every document. *)
Definition sample_world : World := {|
  vector_store := λ _ _, Ok tt;
  ticker_info := λ _ symbol,
    if String.prefix "X" symbol then Err (ExternalError "no data found")
    else Ok [("symbol", PStr symbol); ("longBusinessSummary", PStr ("About " +:+ symbol))];
  from_documents := λ _ _ _ _ _, Ok tt;
|}.

Definition sample_state (done failed : list string) (files : gmap string string) : state := {|
  index_name := "stocks";
  namespace := "stock-descriptions";
  successful_tickers := done;
  unsuccessful_tickers := failed;
  fs := files;
  calls := [];
  stdout := [];
|}.

(** The text of the file [path], empty when the file is absent. *)
Definition log_content (path : string) (s : state) : string :=
  default EmptyString (fs s !! path).

(** What [_load_history] reads from the file [path]. *)
Definition loaded (path : string) (s : state) : list string :=
  match fs s !! path with
  | Some content => stripped_lines content
  | None => []
  end.

(** The attempt on [t] started in state [s] ends with the exception [e],
    raised by the fetch or by the embedding and upsert. *)
Definition raises (w : World) (s : state) (t : string) (e : exn) : Prop :=
  attempt w s t = FetchRaises e ∨ ∃ info, attempt w s t = UpsertRaises info e.

(** A world whose provider knows the symbol of a stock and nothing else. *)
Definition sparse_world : World := {|
  vector_store := λ _ _, Ok tt;
  ticker_info := λ _ symbol, Ok [("symbol", PStr symbol)];
  from_documents := λ _ _ _ _ _, Ok tt;
|}.

(** The names of the two checkpoint logs. *)
Definition SUCCESS_LOG : string := "successful_tickers.txt".
Definition FAILURE_LOG : string := "unsuccessful_tickers.txt".


End IngestVocabulary.

Section AppVocabulary.

Import App.

Definition MODEL_NAME : string := "sentence-transformers/all-mpnet-base-v2".

(** The separator and the delimiters of the context block. *)
Definition SEPARATOR : string := nl +:+ nl +:+ "-------" +:+ nl +:+ nl.

Definition context_block (snippets : list string) : string :=
  "<CONTEXT>" +:+ nl +:+ join SEPARATOR snippets +:+ nl +:+ "-------" +:+ nl
    +:+ "</CONTEXT>" +:+ nl +:+ nl +:+ nl +:+ nl.

(** [item['metadata']['text']]: the text stored with a matched entry, as
    the list comprehension of [get_augmented_context] reads it, and as a
    plain function. *)
Definition stored_text (item : pyval) : M state pyval :=
  metadata ← lift_result (getitem item "metadata");
  lift_result (getitem metadata "text").

Definition text_of (item : pyval) : result pyval :=
  match getitem item "metadata" with
  | Ok metadata => getitem metadata "text"
  | Err e => Err e
  end.

(** The state after an external call [c] has been recorded. *)
Definition app_with_call (c : call) (s : state) : state :=
  {| calls := calls s ++ [c]; stdout := stdout s |}.

(** Modelled from the spec: the schema of permitted filters (sections 3, 4.3
    and 6 of the specification), which the source has no check for.  A
    filter is a dict; each of its entries is a composite [$and]/[$or] over a
    list of filters, or a metadata field with a dict of operators. *)
Definition METADATA_FIELDS : list string :=
  ["Analyst Recommendation"; "Business Summary"; "City"; "Country"; "Industry";
   "Market Cap"; "Name"; "PE Ratio"; "Price"; "Sector"; "State"; "Ticker"; "Volume"].

Definition FILTER_OPERATORS : list string :=
  ["$eq"; "$ne"; "$gt"; "$gte"; "$lt"; "$lte"; "$in"; "$nin"; "$exists"].

Fixpoint spec_filter_permitted (f : pyval) : bool :=
  match f with
  | PDict d =>
      forallb (λ kv,
        match kv with
        | (k, v) =>
            if bool_decide (k = "$and" ∨ k = "$or") then
              match v with
              | PList fs => forallb spec_filter_permitted fs
              | _ => false
              end
            else
              bool_decide (k ∈ METADATA_FIELDS)
              && match v with
                 | PDict ops =>
                     forallb (λ ov, bool_decide (fst ov ∈ FILTER_OPERATORS)) ops
                 | _ => false
                 end
        end) d
  | _ => false
  end.

(** An extraction result whose filter names a field that is not in the
    schema, and one without a filter. *)
Definition foo_filter : pyval := PDict [("Foo", PDict [("$eq", PInt 1)])].

Definition foo_response : pyval :=
  PDict [("filter", foo_filter); ("question", PStr "which companies build rockets?")].

Definition no_filter_response : pyval :=
  PDict [("question", PStr "which companies build rockets?")].

(** Two matches as the index returns them. *)
Definition sample_match (ticker text : string) : pyval :=
  PDict [("id", PStr ticker); ("score", PFloat 9 (-1));
         ("metadata", PDict [("Ticker", PStr ticker); ("text", PStr text)])].

Definition sample_matches : pyval :=
  PDict [("matches", PList [sample_match "RKLB" "Rocket Lab builds rockets.";
                            sample_match "BA" "Boeing builds aircraft."]);
         ("namespace", PStr NAMESPACE)].

Definition sample_vector : pyval := PList [PFloat 1 (-1); PFloat 2 (-1)].

(** An extraction result within the schema, and an answer of the index with
    twelve matches. *)
Definition tech_filter : pyval := PDict [("Sector", PDict [("$eq", PStr "Technology")])].

Definition tech_response : pyval :=
  PDict [("filter", tech_filter); ("question", PStr "which companies build rockets?")].

Definition twelve_tickers : list string :=
  ["AAPL"; "MSFT"; "NVDA"; "AMZN"; "GOOG"; "META"; "TSLA"; "AVGO"; "ORCL"; "CRM";
   "AMD"; "INTC"].

Definition twelve_matches : pyval :=
  PDict [("matches", PList ((λ t, sample_match t ("About " +:+ t)) <$> twelve_tickers))].

(** A world in which every service answers: the completion model with the
    text that [json.loads] decodes to [response], the index with [matches]. *)
Definition app_world (response matches : pyval) : World := {|
  completion := λ _ _ _, Ok "extraction";
  index := λ _ _, Ok tt;
  encode := λ _ _ _, Ok sample_vector;
  query := λ _ _ _ _ _ _ _, Ok matches;
  json_loads := λ _, Ok response;
  py_str := λ _, "<object>";
|}.

Definition app_start : state := {| calls := []; stdout := [] |}.

End AppVocabulary.

Section ScriptVocabulary.

Import Ingest Script.

(** The listing as the source publishes it, for three companies. *)
Definition sample_listing : pyval :=
  PDict [("0", PDict [("cik_str", PInt 320193); ("ticker", PStr "AAPL");
                      ("title", PStr "Apple Inc.")]);
         ("1", PDict [("cik_str", PInt 789019); ("ticker", PStr "MSFT");
                      ("title", PStr "MICROSOFT CORP")]);
         ("2", PDict [("cik_str", PInt 1); ("ticker", PStr "XBAD");
                      ("title", PStr "Unknown Corp")])].

(** A download service that answers with [status]; its body decodes to
    the sample listing. *)
Definition sample_net (status : nat) : Net := {|
  requests_get := λ _, Ok {| status_code := status; content := "listing" |};
  json_loads := λ _, Ok sample_listing;
  json_dumps := λ _, "dump of the listing";
|}.

(** The lines about the logs that [_load_history] prints in state [s]. *)
Definition history_line (path found missing : string) (s : state) : string :=
  match fs s !! path with
  | Some content =>
      "LOADED " +:+ pretty (length (stripped_lines content)) +:+ found
  | None => missing
  end.

Definition history_lines (s : state) : list string :=
  [history_line SUCCESS_LOG " SUCCESSFUL TICKERS"
                "NO EXISTING SUCCESSFUL TICKERS FILE FOUND" s;
   history_line FAILURE_LOG " UNSUCCESSFUL TICKERS"
                "NO EXISTING UNSUCCESSFUL TICKERS FILE FOUND" s].

(** The thirteen fields of the stock facts, each with the key of the
    provider's record it is read from. *)
Definition FIELD_KEYS : list (string * string) :=
  [("Ticker", "symbol"); ("Name", "longName");
   ("Business Summary", "longBusinessSummary"); ("City", "city");
   ("State", "state"); ("Country", "country"); ("Industry", "industry");
   ("Sector", "sector"); ("Market Cap", "marketCap");
   ("Volume", "averageVolume"); ("PE Ratio", "trailingPE");
   ("Price", "currentPrice"); ("Analyst Recommendation", "recommendationKey")].


End ScriptVocabulary.

Section AppMoreVocabulary.

Import App.

(** The place of a call in the order completion, index handle, embedding,
    query. *)
Definition call_rank (c : call) : nat :=
  match c with
  | CallCompletion _ _ => 0
  | CallIndex _ => 1
  | CallEncode _ _ => 2
  | CallQuery _ _ _ _ _ _ => 3
  end.

(** [[item['metadata']['text'] for item in items]] as a plain function:
    the texts of all the items, or the first exception. *)
Fixpoint texts_of (items : list pyval) : result (list pyval) :=
  match items with
  | [] => Ok []
  | item :: rest =>
      match text_of item with
      | Err e => Err e
      | Ok text =>
          match texts_of rest with
          | Ok texts => Ok (text :: texts)
          | Err e => Err e
          end
      end
  end.

(** An answer of the index with eleven matches, the last of which stores a
    number where the text should be. *)
Definition eleven_matches : pyval :=
  PDict [("matches",
          PList (((λ t, sample_match t ("About " +:+ t)) <$> take 10 twelve_tickers)
                 ++ [PDict [("id", PStr "ODD");
                            ("metadata", PDict [("text", PInt 7)])]]))].

(** An answer of the index with eleven matches, the last of which has no
    stored text. *)
Definition unreadable_matches : pyval :=
  PDict [("matches",
          PList (((λ t, sample_match t ("About " +:+ t)) <$> take 10 twelve_tickers)
                 ++ [PDict [("id", PStr "ODD");
                            ("metadata", PDict [("Ticker", PStr "ODD")])]]))].

(** An extraction result with a filter and no question. *)
Definition no_question_response : pyval := PDict [("filter", tech_filter)].

End AppMoreVocabulary.

(** * Properties *)

(** ** Lines and stripping *)

Section StringFacts.

Lemma append_assoc (a b c : string) : (a +:+ b) +:+ c = a +:+ (b +:+ c).
Proof.
  induction a as [|x a IH]; [done|].
  change (String x ((a +:+ b) +:+ c) = String x (a +:+ b +:+ c)). by f_equal.
Qed.

Lemma append_nil_r (a : string) : a +:+ EmptyString = a.
Proof.
  induction a as [|x a IH]; [done|].
  change (String x (a +:+ EmptyString) = String x a). by f_equal.
Qed.

Lemma is_space_LF : is_space LF = true.
Proof. reflexivity. Qed.

Lemma readlines_nonempty (a : ascii) (c : string) : readlines (String a c) ≠ [].
Proof.
  cbn. destruct (decide (a = LF)); [done|]. by destruct (readlines c).
Qed.

Lemma readlines_app (c x : string) :
  ends_lines c = true → readlines (c +:+ x) = readlines c ++ readlines x.
Proof.
  induction c as [|a c IH]; [done|]. intros Hc.
  destruct c as [|b c].
  - cbn in Hc. apply bool_decide_eq_true in Hc as ->. reflexivity.
  - assert (ends_lines (String b c) = true) as Hc' by exact Hc.
    specialize (IH Hc').
    pose proof (readlines_nonempty b c) as Hne.
    remember (String b c) as c' eqn:Ec. clear Ec Hc Hc'.
    change (String a c' +:+ x) with (String a (c' +:+ x)).
    cbn [readlines]. rewrite IH.
    destruct (decide (a = LF)); [done|].
    by destruct (readlines c').
Qed.

Lemma ends_lines_app_nl (c : string) : ends_lines (c +:+ nl) = true.
Proof.
  induction c as [|a c IH]; [done|].
  change (String a c +:+ nl) with (String a (c +:+ nl)).
  destruct c as [|b c]; [done|]. exact IH.
Qed.

Lemma ends_lines_app (c x : string) :
  ends_lines c = true → ends_lines x = true → ends_lines (c +:+ x) = true.
Proof.
  induction c as [|a c IH]; [done|]. intros Hc Hx.
  destruct c as [|b c].
  - cbn in Hc. apply bool_decide_eq_true in Hc as ->.
    destruct x as [|b x]; [done|]. exact Hx.
  - exact (IH Hc Hx).
Qed.

Lemma is_ticker_cons (t : string) :
  is_ticker t = true →
  ∃ a t', t = String a t' ∧ is_ticker_char a = true
          ∧ forallb is_ticker_char (String.list_ascii_of_string t') = true.
Proof.
  unfold is_ticker. destruct t as [|a t'].
  - by rewrite bool_decide_eq_true_2.
  - intros [_ H]%andb_true_iff.
    cbn [String.list_ascii_of_string forallb] in H.
    apply andb_true_iff in H as [Ha Ht]. eauto.
Qed.

Lemma is_ticker_char_space (a : ascii) : is_ticker_char a = true → is_space a = false.
Proof. by intros [Ha%negb_true_iff _]%andb_true_iff. Qed.

Lemma readlines_line (t : string) :
  forallb is_ticker_char (String.list_ascii_of_string t) = true →
  readlines (t +:+ nl) = [t +:+ nl].
Proof.
  induction t as [|a t IH]; [done|]. cbn [String.list_ascii_of_string forallb].
  intros [Ha%is_ticker_char_space Ht]%andb_true_iff.
  change (String a t +:+ nl) with (String a (t +:+ nl)).
  cbn [readlines]. rewrite (IH Ht).
  destruct (decide (a = LF)) as [->|]; [|done].
  by rewrite is_space_LF in Ha.
Qed.

Lemma rstrip_line (t : string) :
  forallb is_ticker_char (String.list_ascii_of_string t) = true →
  rstrip (t +:+ nl) = t.
Proof.
  induction t as [|a t IH]; [done|]. cbn [String.list_ascii_of_string forallb].
  intros [Ha%is_ticker_char_space Ht]%andb_true_iff.
  change (String a t +:+ nl) with (String a (t +:+ nl)).
  cbn [rstrip]. rewrite (IH Ht), Ha. by destruct t.
Qed.

Lemma strip_line (t : string) : is_ticker t = true → strip (t +:+ nl) = t.
Proof.
  intros Ht. destruct (is_ticker_cons t Ht) as (a & t' & -> & Ha & Ht').
  unfold strip. change (String a t' +:+ nl) with (String a (t' +:+ nl)).
  cbn [lstrip]. rewrite (is_ticker_char_space a Ha).
  change (String a (t' +:+ nl)) with (String a t' +:+ nl).
  apply rstrip_line. cbn [String.list_ascii_of_string forallb]. by rewrite Ha.
Qed.

Lemma stripped_lines_app (c x : string) :
  ends_lines c = true →
  Ingest.stripped_lines (c +:+ x) = Ingest.stripped_lines c ++ Ingest.stripped_lines x.
Proof.
  intros Hc. unfold Ingest.stripped_lines.
  by rewrite (readlines_app c x Hc), filter_app, fmap_app.
Qed.

Lemma stripped_lines_line (t : string) :
  is_ticker t = true → Ingest.stripped_lines (t +:+ nl) = [t].
Proof.
  intros Ht. pose proof (strip_line t Ht) as Hs.
  destruct (is_ticker_cons t Ht) as (a & t' & Et & Ha & Ht').
  unfold Ingest.stripped_lines. rewrite readlines_line.
  - rewrite filter_cons_True, filter_nil by (rewrite Hs, Et; done).
    cbn. by rewrite Hs.
  - rewrite Et. cbn [String.list_ascii_of_string forallb]. by rewrite Ha.
Qed.

Example readlines_example :
  readlines ("AAPL" +:+ nl +:+ "MSFT" +:+ nl +:+ "V") = ["AAPL" +:+ nl; "MSFT" +:+ nl; "V"].
Proof. reflexivity. Qed.

Example stripped_lines_example :
  Ingest.stripped_lines ("AAPL" +:+ nl +:+ nl +:+ "  " +:+ nl +:+ " MSFT " +:+ nl +:+ "V")
  = ["AAPL"; "MSFT"; "V"].
Proof. reflexivity. Qed.

(** A line is stripped when it is read back: a string with white space
    around it is not a ticker symbol and is not loaded as it was written. *)
Example padded_symbol_is_stripped :
  is_ticker " A" = false ∧ Ingest.stripped_lines (log_text [" A"]) = ["A"].
Proof. split; reflexivity. Qed.

End StringFacts.

Section IngestFacts.

Import Ingest.

Lemma getitem_business_summary (info : dict) :
  getitem (PDict (stock_properties info)) "Business Summary"
  = Ok (dict_get info "longBusinessSummary" PNone).
Proof. reflexivity. Qed.

Lemma process_stock_cases (w : World) (t : string) (s : state) :
  _process_stock w t s =
  if decide (t ∈ successful_tickers s) then
    (Ok ("Already processed " +:+ t), s)
  else
    match attempt w s t with
    | FetchRaises e =>
        (Ok ("ERROR processing " +:+ t +:+ ": " +:+ str_exn e),
         with_failure t (with_call (CallTickerInfo t) s))
    | UpsertRaises info e =>
        (Ok ("ERROR processing " +:+ t +:+ ": " +:+ str_exn e),
         with_failure t (with_call (upsert_call s info) (with_call (CallTickerInfo t) s)))
    | Stored info =>
        (Ok ("Processed " +:+ t +:+ " successfully"),
         with_success t (with_call (upsert_call s info) (with_call (CallTickerInfo t) s)))
    end.
Proof.
  unfold _process_stock, attempt.
  unfold mbind, M_bind, get_state at 1.
  destruct (decide (t ∈ successful_tickers s)) as [Hin|Hnin]; [reflexivity|].
  unfold try_except, _get_stock_info, mbind, M_bind, external at 1.
  destruct (ticker_info w (calls s) t) as [info|e]; [|reflexivity].
  unfold mret, M_ret, lift_result.
  rewrite getitem_business_summary.
  unfold external; cbn [calls set_calls].
  destruct (from_documents _ _ _ _ _ _); reflexivity.
Qed.


Lemma process_all_cons (w : World) (t : string) (ts : list string) (s : state) :
  process_all w (t :: ts) s = process_all w ts (snd (_process_stock w t s)).
Proof. reflexivity. Qed.

Lemma process_all_app (w : World) (ts1 ts2 : list string) (s : state) :
  process_all w (ts1 ++ ts2) s = process_all w ts2 (process_all w ts1 s).
Proof. unfold process_all. apply foldl_app. Qed.





(** ** Skipping symbols that are already processed *)

Lemma process_stock_skip (w : World) (s : state) (t : string) :
  t ∈ successful_tickers s →
  _process_stock w t s = (Ok ("Already processed " +:+ t), s).
Proof. intros Hin. rewrite process_stock_cases. by rewrite decide_True. Qed.



(** ** The provider record and the constructed facts *)

Lemma stock_properties_sentinel (info : dict) (field key : string) :
  (field, key) ∈ [("Ticker", "symbol"); ("Name", "longName"); ("City", "city");
                  ("State", "state"); ("Country", "country");
                  ("Industry", "industry"); ("Sector", "sector");
                  ("Market Cap", "marketCap"); ("Volume", "averageVolume");
                  ("PE Ratio", "trailingPE"); ("Price", "currentPrice");
                  ("Analyst Recommendation", "recommendationKey")] →
  dict_lookup key info = None →
  dict_lookup field (stock_properties info) = Some NA.
Proof.
  intros Hin Hkey.
  repeat (apply elem_of_cons in Hin as [[= -> ->]|Hin];
          [unfold stock_properties, dict_get; rewrite Hkey; reflexivity|]).
  by apply elem_of_nil in Hin.
Qed.

(** C4.  When the provider's record has no [longBusinessSummary],
    [_get_stock_info] maps "Business Summary" to [None], not to the
    "Information not available" sentinel the other twelve fields get. *)
Theorem business_summary_missing_is_none (w : World) (s : state) (symbol : string)
    (info : dict) :
  ticker_info w (calls s) symbol = Ok info →
  dict_lookup "longBusinessSummary" info = None →
  ∃ facts, fst (_get_stock_info w symbol s) = Ok facts
           ∧ dict_lookup "Business Summary" facts = Some PNone
           ∧ dict_lookup "Business Summary" facts ≠ Some NA.
Proof.
  intros Hinfo Hkey. exists (stock_properties info).
  unfold _get_stock_info, mbind, M_bind, external. rewrite Hinfo.
  split; [reflexivity|].
  assert (dict_lookup "Business Summary" (stock_properties info) = Some PNone) as ->.
  { unfold stock_properties, dict_get. rewrite Hkey. reflexivity. }
  done.
Qed.

Lemma business_summary_missing_is_none_witness :
  ∃ facts,
    fst (_get_stock_info sparse_world "ACME" (sample_state [] [] ∅))
    = Ok facts
    ∧ dict_lookup "Business Summary" facts = Some PNone
    ∧ dict_lookup "Business Summary" facts ≠ Some NA.
Proof.
  apply (business_summary_missing_is_none sparse_world
           (sample_state [] [] ∅) "ACME" [("symbol", PStr "ACME")]);
    reflexivity.
Defined.

(** ** Loading the checkpoint logs *)

Lemma load_history_run (s : state) :
  ∃ out, _load_history s
         = (Ok (loaded SUCCESS_LOG s, loaded FAILURE_LOG s),
            set_stdout (stdout s ++ out) s).
Proof.
  unfold _load_history, loaded, SUCCESS_LOG, FAILURE_LOG.
  unfold mbind, M_bind, try_except, open_read, print, modify, mret, M_ret.
  destruct (fs s !! "successful_tickers.txt") as [c1|] eqn:E1;
    cbn [fs set_stdout stdout];
    destruct (fs s !! "unsuccessful_tickers.txt") as [c2|] eqn:E2;
    cbn [fs set_stdout stdout];
    eexists [_; _]; by rewrite <- app_assoc.
Qed.

(** C6.  [_load_history] always returns: each list is what the lines of
    its own file give, and is empty when that file is absent, whatever the
    state of the other file.  Nothing but the printed lines changes. *)
Theorem load_history_missing_files (s : state) :
  ∃ succ unsucc out,
    _load_history s = (Ok (succ, unsucc), set_stdout (stdout s ++ out) s)
    ∧ succ = loaded "successful_tickers.txt" s
    ∧ unsucc = loaded "unsuccessful_tickers.txt" s
    ∧ (fs s !! "successful_tickers.txt" = None → succ = [])
    ∧ (fs s !! "unsuccessful_tickers.txt" = None → unsucc = []).
Proof.
  destruct (load_history_run s) as [out Hrun].
  exists (loaded SUCCESS_LOG s), (loaded FAILURE_LOG s), out.
  split; [exact Hrun|]. do 2 (split; [reflexivity|]).
  unfold loaded, SUCCESS_LOG, FAILURE_LOG. split; by intros ->.
Qed.

(** ** One [_process_stock] call, field by field *)

Lemma process_stock_step (w : World) (s : state) (t : string) :
  t ∉ successful_tickers s →
  let s1 := snd (_process_stock w t s) in
  index_name s1 = index_name s ∧ namespace s1 = namespace s
  ∧ match attempt w s t with
    | Stored _ =>
        successful_tickers s1 = successful_tickers s ++ [t]
        ∧ unsuccessful_tickers s1 = unsuccessful_tickers s
        ∧ log_content SUCCESS_LOG s1 = log_content SUCCESS_LOG s +:+ t +:+ nl
        ∧ log_content FAILURE_LOG s1 = log_content FAILURE_LOG s
    | _ =>
        successful_tickers s1 = successful_tickers s
        ∧ unsuccessful_tickers s1 = unsuccessful_tickers s ++ [t]
        ∧ log_content SUCCESS_LOG s1 = log_content SUCCESS_LOG s
        ∧ log_content FAILURE_LOG s1 = log_content FAILURE_LOG s +:+ t +:+ nl
    end.
Proof.
  intros Ht. rewrite process_stock_cases, decide_False by done.
  unfold log_content, SUCCESS_LOG, FAILURE_LOG.
  destruct (attempt w s t); cbn;
    rewrite lookup_insert_eq, lookup_insert_ne by done; done.
Qed.

Lemma process_stock_failure (w : World) (s : state) (t : string) (e : exn) :
  t ∉ successful_tickers s → raises w s t e →
  ∃ s', _process_stock w t s
        = (Ok ("ERROR processing " +:+ t +:+ ": " +:+ str_exn e), s')
    ∧ unsuccessful_tickers s' = unsuccessful_tickers s ++ [t]
    ∧ log_content FAILURE_LOG s' = log_content FAILURE_LOG s +:+ t +:+ nl
    ∧ successful_tickers s' = successful_tickers s
    ∧ log_content SUCCESS_LOG s' = log_content SUCCESS_LOG s.
Proof.
  intros Ht He. pose proof (process_stock_step w s t Ht) as Hstep.
  rewrite process_stock_cases, decide_False in * by done.
  destruct He as [He|[info He]]; rewrite He in *; cbn [snd] in Hstep;
    destruct Hstep as (_ & _ & Hs & Hu & Hls & Hlf);
    eexists; (split; [reflexivity|]); done.
Qed.

Lemma log_text_cons (t : string) (ts : list string) :
  log_text (t :: ts) = t +:+ nl +:+ log_text ts.
Proof. reflexivity. Qed.

Lemma log_text_app (ts1 ts2 : list string) :
  log_text (ts1 ++ ts2) = log_text ts1 +:+ log_text ts2.
Proof.
  induction ts1 as [|t ts1 IH]; [done|].
  cbn [app]. by rewrite !log_text_cons, IH, !append_assoc.
Qed.


(** ** Failures of single symbols *)




(** ** The records only grow *)

Lemma loaded_log_content (path : string) (s : state) :
  loaded path s = stripped_lines (log_content path s).
Proof. unfold loaded, log_content. by destruct (fs s !! path). Qed.



Lemma ends_lines_log_text (ts : list string) : ends_lines (log_text ts) = true.
Proof.
  induction ts as [|t ts IH]; [done|].
  rewrite log_text_cons, <- append_assoc.
  apply ends_lines_app; [apply ends_lines_app_nl|exact IH].
Qed.





(** ** The failure records are write-only *)

Lemma process_stock_failure_list_irrelevant (w : World) (s : state) (t : string)
    (u : list string) :
  ∃ new,
    unsuccessful_tickers (snd (_process_stock w t s)) = unsuccessful_tickers s ++ new
    ∧ _process_stock w t (set_unsuccessful_tickers u s)
      = (fst (_process_stock w t s),
         set_unsuccessful_tickers (u ++ new) (snd (_process_stock w t s))).
Proof.
  rewrite !process_stock_cases.
  change (successful_tickers (set_unsuccessful_tickers u s)) with (successful_tickers s).
  change (attempt w (set_unsuccessful_tickers u s) t) with (attempt w s t).
  destruct (decide (t ∈ successful_tickers s)).
  - exists []. cbn. by rewrite !app_nil_r.
  - destruct (attempt w s t); [exists [t]|exists [t]|exists []];
      cbn; by rewrite ?app_nil_r.
Qed.

Lemma process_stock_reattempt (w : World) (s : state) (t : string) :
  t ∉ successful_tickers s →
  ∃ rest,
    calls (snd (_process_stock w t s)) = calls s ++ CallTickerInfo t :: rest
    ∧ ∀ info, ticker_info w (calls s) t = Ok info → rest = [upsert_call s info].
Proof.
  intros Ht. rewrite process_stock_cases, decide_False by done.
  unfold attempt. destruct (ticker_info w (calls s) t) as [info|e].
  - exists [upsert_call s info]. split; [|by intros ? [= ->]].
    fold (upsert_call s info).
    destruct (from_documents _ _ _ _ _ _); cbn; by rewrite <- app_assoc.
  - exists []. split; [reflexivity|done].
Qed.

(** C9.  The failure list is never read: run from a state with any other
    failure list, [_process_stock] returns the same result and has the same
    effects, the symbols it appends to the failure list apart.  So a symbol
    recorded as failed (and not as successful) is attempted again: the
    provider is asked, and the upsert follows when it answers.  If the
    attempt fails again, the symbol is appended once more to the failure
    list, which then has it twice, and to the failure log. *)
Theorem failure_set_not_consulted (w : World) (s : state) (t : string) :
  (∀ u, ∃ new,
      unsuccessful_tickers (snd (_process_stock w t s)) = unsuccessful_tickers s ++ new
      ∧ _process_stock w t (set_unsuccessful_tickers u s)
        = (fst (_process_stock w t s),
           set_unsuccessful_tickers (u ++ new) (snd (_process_stock w t s))))
  ∧ (t ∈ unsuccessful_tickers s → t ∉ successful_tickers s →
       (∃ rest,
          calls (snd (_process_stock w t s)) = calls s ++ CallTickerInfo t :: rest
          ∧ ∀ info, ticker_info w (calls s) t = Ok info → rest = [upsert_call s info])
       ∧ ∀ e, raises w s t e →
           unsuccessful_tickers (snd (_process_stock w t s))
           = unsuccessful_tickers s ++ [t]
           ∧ ¬ NoDup (unsuccessful_tickers (snd (_process_stock w t s)))
           ∧ log_content FAILURE_LOG (snd (_process_stock w t s))
             = log_content FAILURE_LOG s +:+ t +:+ nl).
Proof.
  split; [intros u; apply process_stock_failure_list_irrelevant|].
  intros Hfailed Hfresh. split; [by apply process_stock_reattempt|].
  intros e He.
  destruct (process_stock_failure w s t e Hfresh He) as (s' & -> & Hu & Hl & _).
  cbn [snd]. split; [exact Hu|]. split; [|exact Hl].
  rewrite Hu. intros (_ & Hdisj & _)%NoDup_app.
  apply (Hdisj t Hfailed), list_elem_of_here.
Qed.

Lemma failure_set_not_consulted_witness :
  let s := sample_state [] ["XBAD"] {[ FAILURE_LOG := log_text ["XBAD"] ]} in
  calls (snd (_process_stock sample_world "XBAD" s)) = [CallTickerInfo "XBAD"]
  ∧ unsuccessful_tickers (snd (_process_stock sample_world "XBAD" s)) = ["XBAD"; "XBAD"]
  ∧ log_content FAILURE_LOG (snd (_process_stock sample_world "XBAD" s))
    = log_text ["XBAD"; "XBAD"].
Proof.
  intros s.
  destruct (failure_set_not_consulted sample_world s "XBAD") as [_ Hagain].
  destruct Hagain as [(rest & Hcalls & _) Hfail].
  - apply list_elem_of_here.
  - apply not_elem_of_nil.
  - destruct (Hfail (ExternalError "no data found") (or_introl eq_refl))
      as (Hu & _ & Hl).
    split; [|split; [exact Hu|exact Hl]].
    vm_compute. reflexivity.
Defined.

End IngestFacts.

Section AppFacts.

Import App.

Example foo_filter_not_permitted : spec_filter_permitted foo_filter = false.
Proof. reflexivity. Qed.

Example nested_filter_permitted :
  spec_filter_permitted
    (PDict [("$and", PList [PDict [("Market Cap", PDict [("$gte", PInt 10000000000)])];
                            PDict [("Sector", PDict [("$eq", PStr "Technology")])]])])
  = true.
Proof. reflexivity. Qed.

Ltac bind_step := unfold mbind at 1, M_bind at 1.

Lemma strings_of_PStr (l : list string) : strings_of (PStr <$> l) = Ok l.
Proof. induction l as [|x l IH]; [done|]. cbn. by rewrite IH. Qed.

Lemma stored_text_pure (item : pyval) (s : state) :
  stored_text item s = (text_of item, s).
Proof.
  unfold stored_text, text_of, mbind, M_bind, lift_result.
  by destruct (getitem item "metadata").
Qed.

Lemma collect_texts_state (items : list pyval) (s : state) :
  snd (map_M stored_text items s) = s.
Proof.
  induction items as [|item items IH]; [done|].
  cbn [map_M]. bind_step. rewrite stored_text_pure.
  destruct (text_of item); [|done]. bind_step.
  destruct (map_M stored_text items s) as [[vs|e] s1]; cbn [snd] in IH; by subst s1.
Qed.

Lemma collect_texts_ok (items : list pyval) (texts : list string) (s : state) :
  Forall2 (λ item text, text_of item = Ok (PStr text)) items texts →
  map_M stored_text items s = (Ok (PStr <$> texts), s).
Proof.
  induction 1 as [|item text items texts Htext _ IH]; [done|].
  cbn [map_M]. bind_step. rewrite stored_text_pure, Htext.
  bind_step. by rewrite IH.
Qed.

(** The steps of [get_augmented_context] up to the query, once the
    extraction result has a filter and a question and the index handle and
    the embedding are obtained. *)
Ltac context_prefix Hf Hq Hi He :=
  unfold get_augmented_context, get_huggingface_embeddings;
  change (map_M _ ?items) with (map_M stored_text items);
  bind_step; unfold external at 1; rewrite Hi;
  bind_step; rewrite Hf; unfold lift_result at 1;
  bind_step; unfold print at 1, modify at 1;
  bind_step; rewrite Hq; unfold lift_result at 1;
  bind_step; unfold external at 1; cbn [calls stdout];
  fold MODEL_NAME; rewrite He;
  bind_step; unfold external at 1; cbn [calls stdout];
  rewrite <- !app_assoc; cbn [app].

Lemma get_augmented_context_result (w : World) (s : state) (fr f q vec top : pyval)
    (items : list pyval) (texts : list string) :
  getitem fr "filter" = Ok f →
  getitem fr "question" = Ok q →
  index w (calls s) INDEX_NAME = Ok tt →
  encode w (calls s ++ [CallIndex INDEX_NAME]) MODEL_NAME q = Ok vec →
  query w (calls s ++ [CallIndex INDEX_NAME; CallEncode MODEL_NAME q])
        INDEX_NAME NAMESPACE vec f 10 true = Ok top →
  getitem top "matches" = Ok (PList items) →
  Forall2 (λ item text, text_of item = Ok (PStr text)) items texts →
  fst (get_augmented_context w fr s) = Ok (context_block (take 10 texts)).
Proof.
  intros Hf Hq Hi He Hquery Hm Hall. context_prefix Hf Hq Hi He.
  rewrite Hquery.
  bind_step. unfold print at 1, modify at 1. cbn [calls stdout].
  bind_step. unfold lift_result at 1. rewrite Hm.
  bind_step. unfold lift_result at 1. cbn [iterate].
  bind_step. rewrite (collect_texts_ok items texts _ Hall).
  bind_step. unfold lift_result at 1, str_join.
  rewrite <- fmap_take, strings_of_PStr. reflexivity.
Qed.

(** Whatever happens, [get_augmented_context] only adds calls. *)
Ltac close_extension :=
  cbn [snd calls]; rewrite <- ?app_assoc; by eexists.

Lemma get_augmented_context_extends (w : World) (fr : pyval) (s : state) :
  ∃ rest, calls (snd (get_augmented_context w fr s)) = calls s ++ rest.
Proof.
  unfold get_augmented_context, get_huggingface_embeddings.
  change (map_M _ ?items) with (map_M stored_text items).
  bind_step. unfold external at 1.
  destruct (index w (calls s) INDEX_NAME); [|close_extension].
  bind_step. unfold lift_result at 1.
  destruct (getitem fr "filter") as [f|e]; [|close_extension].
  bind_step. unfold print at 1, modify at 1.
  bind_step. unfold lift_result at 1.
  destruct (getitem fr "question") as [q|e]; [|close_extension].
  bind_step. unfold external at 1. cbn [calls stdout].
  destruct (encode w _ _ q) as [vec|e]; [|close_extension].
  bind_step. unfold external at 1. cbn [calls stdout].
  destruct (query w _ INDEX_NAME NAMESPACE vec f 10 true) as [top|e];
    [|close_extension].
  bind_step. unfold print at 1, modify at 1. cbn [calls stdout].
  bind_step. unfold lift_result at 1.
  destruct (getitem top "matches") as [m|e]; [|close_extension].
  bind_step. unfold lift_result at 1.
  destruct (iterate m) as [items|e]; [|close_extension].
  bind_step.
  match goal with |- context [map_M stored_text items ?s0] =>
    pose proof (collect_texts_state items s0) as Hst;
    destruct (map_M stored_text items s0) as [[context|e] s1];
    cbn [snd] in Hst; subst s1
  end; [|close_extension].
  bind_step. unfold lift_result at 1.
  destruct (str_join _ _); close_extension.
Qed.

Lemma generate_prompt_extends (w : World) (fr : pyval) (s : state) :
  ∃ rest, calls (snd (generate_prompt w fr s)) = calls s ++ rest.
Proof.
  unfold generate_prompt. bind_step.
  destruct (get_augmented_context_extends w fr s) as [rest Hrest].
  destruct (get_augmented_context w fr s) as [[context|e] s1];
    cbn [snd] in Hrest; [|by exists rest].
  exists rest. unfold get_question, mbind, M_bind, lift_result, mret, M_ret.
  by destruct (getitem fr "question").
Qed.

(** ** The filter of the extraction result *)

(** C1 (as the code has it).  The parsed filter is not checked against any
    schema: once the extraction result has a filter and a question and the
    index handle and the embedding are obtained, the index is queried with
    exactly the parsed filter, whatever it is. *)
Theorem filter_passed_unchecked (w : World) (s : state) (fr f q vec : pyval) :
  getitem fr "filter" = Ok f →
  getitem fr "question" = Ok q →
  index w (calls s) INDEX_NAME = Ok tt →
  encode w (calls s ++ [CallIndex INDEX_NAME]) MODEL_NAME q = Ok vec →
  calls (snd (get_augmented_context w fr s))
  = calls s ++ [CallIndex INDEX_NAME; CallEncode MODEL_NAME q;
                CallQuery INDEX_NAME NAMESPACE vec f 10 true].
Proof.
  intros Hf Hq Hi He. context_prefix Hf Hq Hi He.
  destruct (query w _ INDEX_NAME NAMESPACE vec f 10 true) as [top|e]; [|done].
  bind_step. unfold print at 1, modify at 1. cbn [calls stdout].
  bind_step. unfold lift_result at 1.
  destruct (getitem top "matches") as [m|e]; [|done].
  bind_step. unfold lift_result at 1.
  destruct (iterate m) as [items|e]; [|done].
  bind_step.
  match goal with |- context [map_M stored_text items ?s0] =>
    pose proof (collect_texts_state items s0) as Hst;
    destruct (map_M stored_text items s0) as [[context|e] s1];
    cbn [snd] in Hst; subst s1
  end; [|done].
  bind_step. unfold lift_result at 1. by destruct (str_join _ _).
Qed.

Lemma filter_passed_unchecked_witness :
  calls (snd (get_augmented_context (app_world foo_response sample_matches)
                                    foo_response app_start))
  = [CallIndex INDEX_NAME;
     CallEncode MODEL_NAME (PStr "which companies build rockets?");
     CallQuery INDEX_NAME NAMESPACE sample_vector foo_filter 10 true].
Proof.
  apply (filter_passed_unchecked (app_world foo_response sample_matches) app_start
           foo_response foo_filter (PStr "which companies build rockets?")
           sample_vector); reflexivity.
Defined.

(** A filter on the unknown field [Foo] is outside the schema of the
    specification, and still the handler answers 200 after querying the
    index with it. *)
Lemma unknown_field_reaches_index :
  spec_filter_permitted foo_filter = false
  ∧ (∃ body, fst (explore (app_world foo_response sample_matches)
                          (PDict [("user_query", PStr "rocket builders")]) app_start)
             = Ok (body, 200%nat))
  ∧ calls (snd (explore (app_world foo_response sample_matches)
                        (PDict [("user_query", PStr "rocket builders")]) app_start))
    = [CallCompletion "llama3-70b-8192" (explore_prompt "rocket builders");
       CallIndex INDEX_NAME;
       CallEncode MODEL_NAME (PStr "which companies build rockets?");
       CallQuery INDEX_NAME NAMESPACE sample_vector foo_filter 10 true].
Proof.
  split; [reflexivity|]. split; [eexists; vm_compute; reflexivity|].
  vm_compute. reflexivity.
Qed.

(** C5.  An extraction result without the [filter] key makes
    [get_augmented_context] raise [KeyError] right after the index handle
    is obtained: no embedding is computed and no query is issued. *)
Theorem missing_filter_raises (w : World) (s : state) (d : dict) :
  dict_lookup "filter" d = None →
  index w (calls s) INDEX_NAME = Ok tt →
  get_augmented_context w (PDict d) s
  = (Err (KeyError "filter"), app_with_call (CallIndex INDEX_NAME) s).
Proof.
  intros Hd Hi. unfold get_augmented_context.
  bind_step. unfold external at 1. rewrite Hi.
  bind_step. unfold lift_result at 1, getitem. by rewrite Hd.
Qed.

Lemma missing_filter_raises_witness :
  get_augmented_context (app_world no_filter_response sample_matches)
                        no_filter_response app_start
  = (Err (KeyError "filter"), app_with_call (CallIndex INDEX_NAME) app_start).
Proof.
  apply (missing_filter_raises (app_world no_filter_response sample_matches)
           app_start [("question", PStr "which companies build rockets?")]);
    reflexivity.
Defined.

Example explore_missing_filter :
  fst (explore (app_world no_filter_response sample_matches)
               (PDict [("user_query", PStr "rocket builders")]) app_start)
  = Err (KeyError "filter").
Proof. vm_compute. reflexivity. Qed.

(** ** The context block *)

(** C3.  When the index answers the query with a list of matches that each
    carry a stored text, the context block is made of the texts of the
    first ten matches, in the order of the answer, joined by the separator
    between the two delimiters: min(matches, 10) snippets.  With no match
    the block is the two delimiters around nothing. *)
Theorem context_bundle_bounded (w : World) (s : state) (fr f q vec top : pyval)
    (items : list pyval) (texts : list string) :
  getitem fr "filter" = Ok f →
  getitem fr "question" = Ok q →
  index w (calls s) INDEX_NAME = Ok tt →
  encode w (calls s ++ [CallIndex INDEX_NAME]) MODEL_NAME q = Ok vec →
  query w (calls s ++ [CallIndex INDEX_NAME; CallEncode MODEL_NAME q])
        INDEX_NAME NAMESPACE vec f 10 true = Ok top →
  getitem top "matches" = Ok (PList items) →
  Forall2 (λ item text, text_of item = Ok (PStr text)) items texts →
  fst (get_augmented_context w fr s) = Ok (context_block (take 10 texts))
  ∧ length (take 10 texts) = min (length items) 10
  ∧ take 10 texts `prefix_of` texts
  ∧ (items = [] →
     fst (get_augmented_context w fr s)
     = Ok ("<CONTEXT>" +:+ nl +:+ nl +:+ "-------" +:+ nl +:+ "</CONTEXT>"
             +:+ nl +:+ nl +:+ nl +:+ nl)).
Proof.
  intros Hf Hq Hi He Hquery Hm Hall.
  pose proof (get_augmented_context_result w s fr f q vec top items texts
                Hf Hq Hi He Hquery Hm Hall) as Hres.
  split; [exact Hres|]. split; [|split].
  - rewrite length_take, (Forall2_length _ _ _ Hall). lia.
  - apply prefix_take.
  - intros ->. apply Forall2_nil_inv_l in Hall as ->. exact Hres.
Qed.

Lemma context_bundle_bounded_witness :
  let texts := (λ t, "About " +:+ t) <$> twelve_tickers in
  fst (get_augmented_context (app_world tech_response twelve_matches)
                             tech_response app_start)
  = Ok (context_block (take 10 texts))
  ∧ length (take 10 texts) = 10%nat.
Proof.
  intros texts.
  destruct (context_bundle_bounded (app_world tech_response twelve_matches) app_start
              tech_response tech_filter (PStr "which companies build rockets?")
              sample_vector twelve_matches
              ((λ t, sample_match t ("About " +:+ t)) <$> twelve_tickers) texts)
    as (Hres & Hlen & _); try reflexivity.
  - repeat constructor.
  - split; [exact Hres|exact Hlen].
Defined.

(** ** The request body *)

(** C10.  [explore] reads [data["user_query"]] unguarded.  A body without
    the key makes the handler raise [KeyError] at once: no call has been
    made, nothing printed, and no response is returned.  With the key, the
    first call is the completion request whose prompt carries the value
    between the fixed head and tail of the prompt text. *)
Theorem explore_reads_user_query (w : World) (s : state) (d : dict) :
  match dict_lookup "user_query" d with
  | None => explore w (PDict d) s = (Err (KeyError "user_query"), s)
  | Some v =>
      ∃ rest,
        calls (snd (explore w (PDict d) s))
        = calls s
          ++ CallCompletion "llama3-70b-8192"
               (explore_prompt_head +:+ format_value w v +:+ explore_prompt_tail)
             :: rest
  end.
Proof.
  unfold explore. bind_step. unfold lift_result at 1, getitem.
  destruct (dict_lookup "user_query" d) as [v|]; [|reflexivity].
  bind_step. unfold external at 1. fold (explore_prompt (format_value w v)).
  destruct (completion w (calls s) _ _) as [content|e]; [|by exists []].
  bind_step. unfold lift_result at 1.
  destruct (json_loads w content) as [fr|e]; [|by exists []].
  bind_step.
  match goal with |- context [generate_prompt w fr ?s0] =>
    destruct (generate_prompt_extends w fr s0) as [rest Hrest];
    destruct (generate_prompt w fr s0) as [[prompt|e] s1]
  end; cbn [snd] in Hrest; unfold mret, M_ret; cbn [snd];
    rewrite Hrest; cbn [calls]; rewrite <- app_assoc; by exists rest.
Qed.

(** A body that is not a JSON object cannot be subscripted by the key at
    all: the handler raises [TypeError], again before any call. *)
Lemma explore_body_not_object (w : World) (s : state) (data : pyval) :
  (∀ d, data ≠ PDict d) →
  ∃ msg, explore w data s = (Err (TypeError msg), s).
Proof.
  intros Hd. unfold explore. bind_step. unfold lift_result at 1.
  destruct data; cbn [getitem]; eauto. by destruct (Hd d).
Qed.

Example explore_missing_user_query :
  explore (app_world foo_response sample_matches)
          (PDict [("query", PStr "rocket builders")]) app_start
  = (Err (KeyError "user_query"), app_start).
Proof. reflexivity. Qed.

End AppFacts.

(** * Further properties of the ingestion *)

Section IngestMoreFacts.

Import Ingest.

Ltac bind1 := unfold mbind at 1, M_bind at 1.

(** ** Building the object *)

Lemma load_history_exact (s : state) :
  _load_history s
  = (Ok (loaded SUCCESS_LOG s, loaded FAILURE_LOG s),
     set_stdout (stdout s ++ history_lines s) s).
Proof.
  unfold _load_history, loaded, history_lines, history_line, SUCCESS_LOG, FAILURE_LOG.
  unfold mbind, M_bind, try_except, open_read, print, modify, mret, M_ret.
  destruct (fs s !! "successful_tickers.txt") as [c1|] eqn:E1;
    cbn [fs set_stdout stdout];
    destruct (fs s !! "unsuccessful_tickers.txt") as [c2|] eqn:E2;
    cbn [fs set_stdout stdout];
    by rewrite <- app_assoc.
Qed.

Lemma init_run (w : World) (i n : string) (s : state) :
  __init__ w i n s
  = match vector_store w (calls s) i with
    | Err e =>
        (Err e,
         {| index_name := i; namespace := n;
            successful_tickers := successful_tickers s;
            unsuccessful_tickers := unsuccessful_tickers s;
            fs := fs s; calls := calls s ++ [CallVectorStore i];
            stdout := stdout s ++ ["INITIALIZING..."] |})
    | Ok _ =>
        (Ok tt,
         {| index_name := i; namespace := n;
            successful_tickers := loaded SUCCESS_LOG s;
            unsuccessful_tickers := loaded FAILURE_LOG s;
            fs := fs s; calls := calls s ++ [CallVectorStore i];
            stdout := ((stdout s ++ ["INITIALIZING..."]) ++ history_lines s)
                        ++ ["COMPLETED INITIALIZATION..."] |})
    end.
Proof.
  unfold __init__.
  bind1. unfold print at 1, modify at 1.
  bind1. unfold modify at 1.
  bind1. unfold external at 1. cbn [calls set_names set_stdout].
  destruct (vector_store w (calls s) i) as [[]|e]; [|reflexivity].
  bind1. rewrite load_history_exact.
  unfold mbind, M_bind, print, modify. reflexivity.
Qed.


(** ** Writing and reading a log *)

Lemma stripped_lines_log_text_all (ts : list string) :
  Forall (λ t, is_ticker t = true) ts → stripped_lines (log_text ts) = ts.
Proof.
  induction 1 as [|t ts Ht _ IH]; [done|].
  rewrite log_text_cons, <- append_assoc.
  rewrite stripped_lines_app by apply ends_lines_app_nl.
  by rewrite stripped_lines_line, IH.
Qed.

(** X2.  A log is read back as it was written: when the two files hold the
    lines written for the ticker symbols [ts] and [us], [_load_history]
    returns exactly [ts] and [us], in order and with repetitions. *)
Theorem load_history_round_trip (s : state) (ts us : list string) :
  Forall (λ t, is_ticker t = true) ts →
  Forall (λ t, is_ticker t = true) us →
  fs s !! SUCCESS_LOG = Some (log_text ts) →
  fs s !! FAILURE_LOG = Some (log_text us) →
  fst (_load_history s) = Ok (ts, us).
Proof.
  intros Hts Hus Hs Hf. rewrite load_history_exact. cbn [fst].
  unfold loaded. rewrite Hs, Hf.
  by rewrite !stripped_lines_log_text_all.
Qed.

Lemma load_history_round_trip_witness :
  fst (_load_history
         (sample_state [] [] {[ SUCCESS_LOG := log_text ["AAPL"; "MSFT"];
                                FAILURE_LOG := log_text ["XBAD"; "XBAD"] ]}))
  = Ok (["AAPL"; "MSFT"], ["XBAD"; "XBAD"]).
Proof.
  apply load_history_round_trip.
  - repeat constructor.
  - repeat constructor.
  - reflexivity.
  - reflexivity.
Defined.

(** ** What a batch records *)

Lemma process_stock_records (w : World) (s : state) (t : string) :
  ∃ new_s new_f,
    successful_tickers (snd (_process_stock w t s)) = successful_tickers s ++ new_s
    ∧ log_content SUCCESS_LOG (snd (_process_stock w t s))
      = log_content SUCCESS_LOG s +:+ log_text new_s
    ∧ unsuccessful_tickers (snd (_process_stock w t s))
      = unsuccessful_tickers s ++ new_f
    ∧ log_content FAILURE_LOG (snd (_process_stock w t s))
      = log_content FAILURE_LOG s +:+ log_text new_f
    ∧ (∀ x, x ∈ new_s ++ new_f → x = t)
    ∧ (t ∈ successful_tickers s ∨ t ∈ new_s ∨ t ∈ new_f).
Proof.
  destruct (decide (t ∈ successful_tickers s)) as [Hin|Hnin].
  - rewrite (process_stock_skip w s t Hin). exists [], []. cbn [snd log_text foldr].
    rewrite !app_nil_r, !append_nil_r. repeat split; [|by left].
    by intros x ?%elem_of_nil.
  - destruct (process_stock_step w s t Hnin) as (_ & _ & Hstep).
    destruct (attempt w s t); destruct Hstep as (Hs & Hu & Hls & Hlf);
      [exists [], [t]|exists [], [t]|exists [t], []];
      rewrite Hs, Hu, Hls, Hlf; cbn [log_text foldr app];
      rewrite ?app_nil_r, ?append_nil_r;
      (repeat split; [by intros x ->%list_elem_of_singleton|]);
      right; [right|right|left]; apply list_elem_of_here.
Qed.

Lemma process_all_records (w : World) (tickers : list string) (s : state) :
  ∃ new_s new_f,
    successful_tickers (process_all w tickers s) = successful_tickers s ++ new_s
    ∧ log_content SUCCESS_LOG (process_all w tickers s)
      = log_content SUCCESS_LOG s +:+ log_text new_s
    ∧ unsuccessful_tickers (process_all w tickers s)
      = unsuccessful_tickers s ++ new_f
    ∧ log_content FAILURE_LOG (process_all w tickers s)
      = log_content FAILURE_LOG s +:+ log_text new_f
    ∧ (∀ x, x ∈ new_s ++ new_f → x ∈ tickers)
    ∧ (∀ t, t ∈ tickers → t ∈ successful_tickers s ∨ t ∈ new_s ∨ t ∈ new_f).
Proof.
  revert s. induction tickers as [|t ts IH]; intros s.
  - exists [], []. cbn. rewrite !app_nil_r, !append_nil_r.
    repeat split; by intros x ?%elem_of_nil.
  - rewrite process_all_cons.
    destruct (process_stock_records w s t)
      as (a1 & b1 & Hs1 & Hl1 & Hu1 & Hf1 & Hin1 & Hcov1).
    destruct (IH (snd (_process_stock w t s)))
      as (a2 & b2 & Hs2 & Hl2 & Hu2 & Hf2 & Hin2 & Hcov2).
    exists (a1 ++ a2), (b1 ++ b2).
    split; [by rewrite Hs2, Hs1, <- app_assoc|].
    split; [by rewrite Hl2, Hl1, log_text_app, append_assoc|].
    split; [by rewrite Hu2, Hu1, <- app_assoc|].
    split; [by rewrite Hf2, Hf1, log_text_app, append_assoc|].
    split.
    + intros x Hx. rewrite !elem_of_app in Hx. apply elem_of_cons.
      destruct Hx as [[Hx|Hx]|[Hx|Hx]].
      * left. apply Hin1, elem_of_app. by left.
      * right. apply Hin2, elem_of_app. by left.
      * left. apply Hin1, elem_of_app. by right.
      * right. apply Hin2, elem_of_app. by right.
    + intros x [->|Hx]%elem_of_cons.
      * rewrite !elem_of_app. tauto.
      * specialize (Hcov2 x Hx). rewrite Hs1 in Hcov2.
        rewrite !elem_of_app in Hcov2. rewrite !elem_of_app. tauto.
Qed.

(** X3.  The lists in memory mirror the logs on disk.  When the two lists
    are what the logs read back as, the logs are empty or end with a line
    feed, and the batch is made of ticker symbols, then after the batch each
    list is again exactly what its log reads back as: a restart at that
    point builds the same lists. *)
Theorem lists_mirror_logs (w : World) (tickers : list string) (s : state) :
  Forall (λ t, is_ticker t = true) tickers →
  ends_lines (log_content SUCCESS_LOG s) = true →
  ends_lines (log_content FAILURE_LOG s) = true →
  successful_tickers s = loaded SUCCESS_LOG s →
  unsuccessful_tickers s = loaded FAILURE_LOG s →
  successful_tickers (process_all w tickers s)
  = loaded SUCCESS_LOG (process_all w tickers s)
  ∧ unsuccessful_tickers (process_all w tickers s)
    = loaded FAILURE_LOG (process_all w tickers s)
  ∧ ends_lines (log_content SUCCESS_LOG (process_all w tickers s)) = true
  ∧ ends_lines (log_content FAILURE_LOG (process_all w tickers s)) = true.
Proof.
  intros Htick Hes Hef Hs Hf.
  destruct (process_all_records w tickers s)
    as (new_s & new_f & Hs' & Hl' & Hu' & Hf' & Hin & _).
  assert (Forall (λ t, is_ticker t = true) new_s) as Hns.
  { apply Forall_forall. intros x Hx.
    apply (proj1 (Forall_forall _ _) Htick), Hin, elem_of_app. by left. }
  assert (Forall (λ t, is_ticker t = true) new_f) as Hnf.
  { apply Forall_forall. intros x Hx.
    apply (proj1 (Forall_forall _ _) Htick), Hin, elem_of_app. by right. }
  rewrite !loaded_log_content, Hs', Hl', Hu', Hf'.
  rewrite !stripped_lines_app by done.
  rewrite !stripped_lines_log_text_all by done.
  rewrite <- !loaded_log_content, <- Hs, <- Hf.
  repeat split; apply ends_lines_app; auto using ends_lines_log_text.
Qed.

Lemma lists_mirror_logs_witness :
  let s' := process_all sample_world ["AAPL"; "XBAD"; "MSFT"; "XBAD"]
                        (sample_state [] [] ∅) in
  successful_tickers s' = loaded SUCCESS_LOG s'
  ∧ unsuccessful_tickers s' = loaded FAILURE_LOG s'
  ∧ unsuccessful_tickers s' = ["XBAD"; "XBAD"].
Proof.
  intros s'.
  destruct (lists_mirror_logs sample_world ["AAPL"; "XBAD"; "MSFT"; "XBAD"]
              (sample_state [] [] ∅)) as (Hs & Hf & _); try reflexivity.
  - repeat constructor.
  - split; [exact Hs|]. split; [exact Hf|]. vm_compute. reflexivity.
Defined.


End IngestMoreFacts.

Section BatchFacts.

Import Ingest.

(** ** Batches of processed symbols *)








(** ** What a batch prints *)





(** ** The success path of one symbol *)

(** X8.  When the provider answers with a record and the upsert succeeds,
    [_process_stock] has made exactly these two calls, the upsert carrying
    the business summary as text ([None] when the record has none) and the
    thirteen facts as metadata, under the index and namespace of the object;
    the symbol is appended to the success log and list, the failure records
    are untouched, and the message says so. *)
Theorem process_stock_success (w : World) (s : state) (t : string) (info : dict) :
  t ∉ successful_tickers s →
  ticker_info w (calls s) t = Ok info →
  from_documents w (calls s ++ [CallTickerInfo t])
                 (dict_get info "longBusinessSummary" PNone) (stock_properties info)
                 (index_name s) (namespace s) = Ok tt →
  ∃ s', _process_stock w t s = (Ok ("Processed " +:+ t +:+ " successfully"), s')
    ∧ calls s' = calls s ++ [CallTickerInfo t;
                              CallFromDocuments (dict_get info "longBusinessSummary" PNone)
                                                (stock_properties info)
                                                (index_name s) (namespace s)]
    ∧ successful_tickers s' = successful_tickers s ++ [t]
    ∧ log_content SUCCESS_LOG s' = log_content SUCCESS_LOG s +:+ t +:+ nl
    ∧ unsuccessful_tickers s' = unsuccessful_tickers s
    ∧ log_content FAILURE_LOG s' = log_content FAILURE_LOG s.
Proof.
  intros Hfresh Hinfo Hstore.
  pose proof (process_stock_step w s t Hfresh) as Hstep.
  rewrite process_stock_cases, decide_False in * by done.
  assert (attempt w s t = Stored info) as Hattempt.
  { unfold attempt. by rewrite Hinfo, Hstore. }
  rewrite Hattempt in *. cbn [snd] in Hstep.
  destruct Hstep as (_ & _ & Hs & Hu & Hls & Hlf).
  eexists. split; [reflexivity|].
  split; [cbn; by rewrite <- app_assoc|]. done.
Qed.

Lemma process_stock_success_witness :
  ∃ s', _process_stock sample_world "AAPL" (sample_state [] ["AAPL"] ∅)
        = (Ok "Processed AAPL successfully", s')
    ∧ successful_tickers s' = ["AAPL"]
    ∧ unsuccessful_tickers s' = ["AAPL"]
    ∧ log_content SUCCESS_LOG s' = log_text ["AAPL"].
Proof.
  destruct (process_stock_success sample_world (sample_state [] ["AAPL"] ∅) "AAPL"
              [("symbol", PStr "AAPL"); ("longBusinessSummary", PStr "About AAPL")])
    as (s' & Hrun & _ & Hs & Hl & Hu & _).
  - apply not_elem_of_nil.
  - reflexivity.
  - reflexivity.
  - exists s'. repeat split; [exact Hrun|exact Hs|exact Hu|exact Hl].
Defined.

(** ** The facts of one stock *)

(** X9.  [_get_stock_info] asks the provider once.  If the provider raises,
    so does it.  Otherwise it returns the thirteen fields, in their fixed
    order and nothing else, and every field whose key the record has
    carries the record's value unchanged. *)
Theorem get_stock_info_passes_values (w : World) (s : state) (symbol : string) :
  match ticker_info w (calls s) symbol with
  | Err e =>
      _get_stock_info w symbol s = (Err e, with_call (CallTickerInfo symbol) s)
  | Ok info =>
      ∃ facts,
        _get_stock_info w symbol s = (Ok facts, with_call (CallTickerInfo symbol) s)
        ∧ fst <$> facts = fst <$> FIELD_KEYS
        ∧ ∀ field key v, (field, key) ∈ FIELD_KEYS →
            dict_lookup key info = Some v → dict_lookup field facts = Some v
  end.
Proof.
  unfold _get_stock_info, mbind, M_bind, external.
  destruct (ticker_info w (calls s) symbol) as [info|e]; [|reflexivity].
  exists (stock_properties info). split; [reflexivity|]. split; [reflexivity|].
  intros field key v Hin Hkey. unfold FIELD_KEYS in Hin.
  repeat (apply elem_of_cons in Hin as [[= -> ->]|Hin];
          [unfold stock_properties, dict_get; rewrite Hkey; reflexivity|]).
  by apply elem_of_nil in Hin.
Qed.

End BatchFacts.

(** * The download and the script *)

Section ScriptFacts.

Import Ingest Script.

Ltac bind2 := unfold mbind at 1, M_bind at 1.

Lemma get_tickers_run (net : Net) (s : state) :
  get_tickers net s
  = match requests_get net TICKERS_URL with
    | Err e => (Err e, s)
    | Ok r =>
        if decide (status_code r = 200%nat) then
          match json_loads net (content r) with
          | Err e => (Err e, s)
          | Ok v =>
              (Ok v,
               set_stdout
                 (stdout s
                  ++ ["FILE DOWNLOADED SUCCESSFULLY AND SAVED AS 'COMPANY_TICKERS.JSON'"])
                 (set_fs (<["company_tickers.json" := json_dumps net v]> (fs s)) s))
          end
        else
          (Ok PNone,
           set_stdout
             (stdout s
              ++ ["FAILED TO DOWNLOAD FILE. STATUS CODE: " +:+ pretty (status_code r)])
             s)
    end.
Proof.
  unfold get_tickers. bind2. unfold lift_result at 1.
  destruct (requests_get net TICKERS_URL) as [r|e]; [|reflexivity].
  destruct (decide (status_code r = 200%nat)) as [H200|H200]; [|reflexivity].
  bind2. unfold lift_result at 1.
  destruct (json_loads net (content r)) as [v|e]; reflexivity.
Qed.

(** X10.  [get_tickers] never touches the lists, the external calls or any
    file other than [company_tickers.json].  A status other than 200 is not
    an exception: it returns [None], prints the status and writes nothing.
    With status 200 the decoded listing is returned and the file is
    replaced by its dump; a body that does not decode raises before the
    file is opened. *)
Theorem get_tickers_outcome (net : Net) (s : state) (r : response) :
  requests_get net TICKERS_URL = Ok r →
  successful_tickers (snd (get_tickers net s)) = successful_tickers s
  ∧ unsuccessful_tickers (snd (get_tickers net s)) = unsuccessful_tickers s
  ∧ calls (snd (get_tickers net s)) = calls s
  ∧ (∀ path, path ≠ "company_tickers.json" →
       fs (snd (get_tickers net s)) !! path = fs s !! path)
  ∧ (status_code r ≠ 200%nat →
       fst (get_tickers net s) = Ok PNone
       ∧ fs (snd (get_tickers net s)) = fs s
       ∧ stdout (snd (get_tickers net s))
         = stdout s ++ ["FAILED TO DOWNLOAD FILE. STATUS CODE: "
                          +:+ pretty (status_code r)])
  ∧ (status_code r = 200%nat →
       match json_loads net (content r) with
       | Ok v =>
           fst (get_tickers net s) = Ok v
           ∧ fs (snd (get_tickers net s)) !! "company_tickers.json"
             = Some (json_dumps net v)
       | Err e => get_tickers net s = (Err e, s)
       end).
Proof.
  intros Hget. rewrite get_tickers_run, Hget.
  destruct (decide (status_code r = 200%nat)) as [H200|H200];
    [destruct (json_loads net (content r)) as [v|e]|];
    cbn [fst snd successful_tickers unsuccessful_tickers calls fs stdout
         set_stdout set_fs];
    split_and!; try done.
  - intros path Hpath. by rewrite lookup_insert_ne.
  - intros _. split; [done|]. by rewrite lookup_insert_eq.
Qed.

Lemma get_tickers_outcome_witness :
  fst (get_tickers (sample_net 404) (sample_state [] [] ∅)) = Ok PNone
  ∧ fs (snd (get_tickers (sample_net 404) (sample_state [] [] ∅))) = ∅
  ∧ fst (get_tickers (sample_net 200) (sample_state [] [] ∅)) = Ok sample_listing.
Proof.
  destruct (get_tickers_outcome (sample_net 404) (sample_state [] [] ∅)
              {| status_code := 404; content := "listing" |} eq_refl)
    as (_ & _ & _ & _ & Hfail & _).
  destruct (get_tickers_outcome (sample_net 200) (sample_state [] [] ∅)
              {| status_code := 200; content := "listing" |} eq_refl)
    as (_ & _ & _ & _ & _ & Hok).
  destruct (Hfail ltac:(done)) as (Hnone & Hfs & _).
  destruct (Hok eq_refl) as [Hlisting _].
  split; [exact Hnone|]. split; [exact Hfs|exact Hlisting].
Defined.

(** ** The column of symbols *)

Lemma dict_lookup_unique (d : dict) (k : string) (v : pyval) :
  NoDup (fst <$> d) → (k, v) ∈ d → dict_lookup k d = Some v.
Proof.
  induction d as [|[k' v'] d IH]; [by intros _ ?%elem_of_nil|].
  cbn [fmap list_fmap fst dict_lookup].
  intros [Hk Hnd]%NoDup_cons [[= -> ->]|Hin]%elem_of_cons.
  - by rewrite decide_True.
  - rewrite decide_False; [by apply IH|].
    intros ->. apply Hk. apply list_elem_of_fmap. by exists (k, v).
Qed.

Lemma ticker_column_rows (d rows : dict) (column : list pyval) :
  (∀ kv, kv ∈ rows → dict_lookup (fst kv) d = Some (snd kv)) →
  Forall2 (λ kv t, getitem (snd kv) "ticker" = Ok t) rows column →
  ticker_column (PDict d) (fst <$> rows) = Ok column.
Proof.
  intros Hrows Hall. induction Hall as [|kv t rows column Ht _ IH]; [done|].
  cbn [fmap list_fmap ticker_column getitem].
  rewrite (Hrows kv) by apply list_elem_of_here. rewrite Ht.
  rewrite IH; [done|]. intros kv' Hin. apply Hrows. by right.
Qed.

(** X11.  For a listing (a dict with distinct keys whose every row has a
    [ticker] entry) the comprehension yields the tickers of the rows, one
    per row and in the order of the listing.  What is not a dict has no
    [keys]: the comprehension raises [AttributeError] naming its type. *)
Theorem tickers_to_process_listing (tickers : pyval) :
  (∀ d column,
     tickers = PDict d → NoDup (fst <$> d) →
     Forall2 (λ kv t, getitem (snd kv) "ticker" = Ok t) d column →
     tickers_to_process tickers = Finished column ∧ length column = length d)
  ∧ ((∀ d, tickers ≠ PDict d) →
     tickers_to_process tickers
     = UncaughtAttributeError
         (sq +:+ type_name tickers +:+ sq +:+ " object has no attribute 'keys'")).
Proof.
  split.
  - intros d column -> Hnd Hall. unfold tickers_to_process.
    rewrite (ticker_column_rows d d column); [|  |exact Hall].
    + split; [done|]. symmetry. by eapply Forall2_length.
    + intros [k v] Hin. by apply dict_lookup_unique.
  - intros Hnot. destruct tickers; try reflexivity. by destruct (Hnot d).
Qed.

Lemma tickers_to_process_listing_witness :
  tickers_to_process sample_listing = Finished [PStr "AAPL"; PStr "MSFT"; PStr "XBAD"]
  ∧ tickers_to_process PNone
    = UncaughtAttributeError "'NoneType' object has no attribute 'keys'".
Proof.
  split.
  - destruct (tickers_to_process_listing sample_listing) as [Hlist _].
    refine (proj1 (Hlist _ [PStr "AAPL"; PStr "MSFT"; PStr "XBAD"] eq_refl _ _)).
    + refine (bool_decide_unpack _ _); vm_compute; exact I.
    + repeat constructor.
  - destruct (tickers_to_process_listing PNone) as [_ Hnone].
    apply Hnone. done.
Defined.


(** ** The script *)

(** X12.  When the download answers with a status other than 200, the
    script ends with an uncaught [AttributeError] on [None], after the
    object is built and before any symbol is processed: the only external
    call is the construction of the vector store and no file is written. *)
Theorem main_failed_download (w : World) (net : Net) (s : state) (r : response) :
  vector_store w (calls s) "stocks" = Ok tt →
  requests_get net TICKERS_URL = Ok r →
  status_code r ≠ 200%nat →
  ∃ s', main w net s
        = (UncaughtAttributeError "'NoneType' object has no attribute 'keys'", s')
    ∧ calls s' = calls s ++ [CallVectorStore "stocks"]
    ∧ fs s' = fs s
    ∧ successful_tickers s' = loaded SUCCESS_LOG s
    ∧ unsuccessful_tickers s' = loaded FAILURE_LOG s.
Proof.
  intros Hv Hget H200. unfold main. rewrite init_run, Hv.
  rewrite get_tickers_run, Hget, decide_False by done.
  cbn [tickers_to_process]. eexists. split; [reflexivity|]. done.
Qed.

Lemma main_failed_download_witness :
  ∃ s', main sample_world (sample_net 503) (sample_state [] [] ∅)
        = (UncaughtAttributeError "'NoneType' object has no attribute 'keys'", s')
    ∧ calls s' = [CallVectorStore "stocks"]
    ∧ fs s' = ∅.
Proof.
  destruct (main_failed_download sample_world (sample_net 503) (sample_state [] [] ∅)
              {| status_code := 503; content := "listing" |})
    as (s' & Hrun & Hc & Hfs & _); [reflexivity|reflexivity|done|].
  exists s'. split; [exact Hrun|]. split; [exact Hc|exact Hfs].
Defined.



End ScriptFacts.

(** * Further properties of the handler *)

Section AppMoreFacts.

Import App.

Ltac bind3 := unfold mbind at 1, M_bind at 1.

Lemma collect_texts_run (items : list pyval) (s : state) :
  map_M stored_text items s = (texts_of items, s).
Proof.
  induction items as [|item items IH]; [done|].
  cbn [map_M texts_of]. bind3. rewrite stored_text_pure.
  destruct (text_of item); [|done]. bind3. rewrite IH.
  by destruct (texts_of items).
Qed.

(** [get_augmented_context] once the query has answered with a list of
    matches: all the texts are read, the first ten are joined. *)
Lemma get_augmented_context_assembled (w : World) (s : state)
    (fr f q vec top : pyval) (items : list pyval) :
  getitem fr "filter" = Ok f →
  getitem fr "question" = Ok q →
  index w (calls s) INDEX_NAME = Ok tt →
  encode w (calls s ++ [CallIndex INDEX_NAME]) MODEL_NAME q = Ok vec →
  query w (calls s ++ [CallIndex INDEX_NAME; CallEncode MODEL_NAME q])
        INDEX_NAME NAMESPACE vec f 10 true = Ok top →
  getitem top "matches" = Ok (PList items) →
  get_augmented_context w fr s
  = (match texts_of items with
     | Err e => Err e
     | Ok texts =>
         match strings_of (take 10 texts) with
         | Err e => Err e
         | Ok snippets => Ok (context_block snippets)
         end
     end,
     {| calls := calls s ++ [CallIndex INDEX_NAME; CallEncode MODEL_NAME q;
                              CallQuery INDEX_NAME NAMESPACE vec f 10 true];
        stdout := stdout s ++ [f; top] |}).
Proof.
  intros Hf Hq Hi He Hquery Hm.
  unfold get_augmented_context, get_huggingface_embeddings.
  change (map_M _ ?items) with (map_M stored_text items).
  bind3. unfold external at 1. rewrite Hi.
  bind3. rewrite Hf. unfold lift_result at 1.
  bind3. unfold print at 1, modify at 1.
  bind3. rewrite Hq. unfold lift_result at 1.
  bind3. unfold external at 1. cbn [calls stdout].
  fold MODEL_NAME. rewrite He.
  bind3. unfold external at 1. cbn [calls stdout].
  rewrite <- !app_assoc. cbn [app]. rewrite Hquery.
  bind3. unfold print at 1, modify at 1. cbn [calls stdout].
  rewrite <- !app_assoc. cbn [app].
  bind3. unfold lift_result at 1. rewrite Hm.
  bind3. unfold lift_result at 1. cbn [iterate].
  bind3. rewrite collect_texts_run.
  destruct (texts_of items) as [texts|e]; [|reflexivity].
  bind3. unfold lift_result at 1, str_join.
  by destruct (strings_of (take 10 texts)).
Qed.

Lemma texts_of_strings (items : list pyval) (texts : list string) :
  Forall2 (λ item text, text_of item = Ok (PStr text)) items texts →
  texts_of items = Ok (PStr <$> texts).
Proof.
  induction 1 as [|item text items texts Htext _ IH]; [done|].
  cbn [texts_of fmap list_fmap]. by rewrite Htext, IH.
Qed.

Lemma texts_of_values (items vals : list pyval) :
  Forall2 (λ item v, text_of item = Ok v) items vals → texts_of items = Ok vals.
Proof.
  induction 1 as [|item v items vals Hv _ IH]; [done|].
  cbn [texts_of]. by rewrite Hv, IH.
Qed.

Lemma texts_of_unreadable (good rest : list pyval) (bad : pyval) (e : exn) :
  Forall (λ item, ∃ v, text_of item = Ok v) good →
  text_of bad = Err e →
  texts_of (good ++ bad :: rest) = Err e.
Proof.
  intros Hgood Hbad. induction Hgood as [|item good [v Hv] _ IH].
  - cbn. by rewrite Hbad.
  - cbn [app texts_of]. by rewrite Hv, IH.
Qed.

Lemma strings_of_not_string (vals : list pyval) (i : nat) (v : pyval) :
  vals !! i = Some v → (∀ x, v ≠ PStr x) →
  ∃ msg, strings_of vals = Err (TypeError msg).
Proof.
  revert i. induction vals as [|a vals IH]; intros i; [done|].
  destruct i as [|i]; cbn [lookup list_lookup].
  - intros [= ->] Hv. destruct v; cbn; eauto. by destruct (Hv s).
  - intros Hi Hv. destruct (IH i Hi Hv) as [msg Hmsg].
    destruct a; cbn; eauto. rewrite Hmsg. eauto.
Qed.

(** ** Matches that cannot be used *)

(** X14.  Every match of the answer is read, not only the first ten: one
    match without a stored text, at any position, makes the assembly raise
    the exception of that lookup, and no context block is produced. *)
Theorem unreadable_match_fails (w : World) (s : state) (fr f q vec top : pyval)
    (good rest : list pyval) (bad : pyval) (e : exn) :
  getitem fr "filter" = Ok f →
  getitem fr "question" = Ok q →
  index w (calls s) INDEX_NAME = Ok tt →
  encode w (calls s ++ [CallIndex INDEX_NAME]) MODEL_NAME q = Ok vec →
  query w (calls s ++ [CallIndex INDEX_NAME; CallEncode MODEL_NAME q])
        INDEX_NAME NAMESPACE vec f 10 true = Ok top →
  getitem top "matches" = Ok (PList (good ++ bad :: rest)) →
  Forall (λ item, ∃ v, text_of item = Ok v) good →
  text_of bad = Err e →
  fst (get_augmented_context w fr s) = Err e.
Proof.
  intros Hf Hq Hi He Hquery Hm Hgood Hbad.
  rewrite (get_augmented_context_assembled w s fr f q vec top _ Hf Hq Hi He Hquery Hm).
  by rewrite (texts_of_unreadable good rest bad e Hgood Hbad).
Qed.

Lemma unreadable_match_fails_witness :
  fst (get_augmented_context (app_world tech_response unreadable_matches)
                             tech_response app_start)
  = Err (KeyError "text").
Proof.
  apply (unreadable_match_fails (app_world tech_response unreadable_matches) app_start
           tech_response tech_filter (PStr "which companies build rockets?")
           sample_vector unreadable_matches
           ((λ t, sample_match t ("About " +:+ t)) <$> take 10 twelve_tickers) []
           (PDict [("id", PStr "ODD"); ("metadata", PDict [("Ticker", PStr "ODD")])]));
    try reflexivity.
  repeat (constructor; [eexists; reflexivity|]). constructor.
Defined.

(** X15.  Only the first ten stored texts have to be strings.  When every
    match has a stored text, the block is built from the first ten if they
    are strings, whatever the later ones are; a value among the first ten
    that is not a string makes the join raise [TypeError]. *)
Theorem only_first_ten_texts_joined (w : World) (s : state) (fr f q vec top : pyval)
    (items vals : list pyval) :
  getitem fr "filter" = Ok f →
  getitem fr "question" = Ok q →
  index w (calls s) INDEX_NAME = Ok tt →
  encode w (calls s ++ [CallIndex INDEX_NAME]) MODEL_NAME q = Ok vec →
  query w (calls s ++ [CallIndex INDEX_NAME; CallEncode MODEL_NAME q])
        INDEX_NAME NAMESPACE vec f 10 true = Ok top →
  getitem top "matches" = Ok (PList items) →
  Forall2 (λ item v, text_of item = Ok v) items vals →
  (∀ snippets, take 10 vals = PStr <$> snippets →
     fst (get_augmented_context w fr s) = Ok (context_block snippets))
  ∧ (∀ i v, (i < 10)%nat → vals !! i = Some v → (∀ x, v ≠ PStr x) →
       ∃ msg, fst (get_augmented_context w fr s) = Err (TypeError msg)).
Proof.
  intros Hf Hq Hi He Hquery Hm Hvals.
  rewrite (get_augmented_context_assembled w s fr f q vec top _ Hf Hq Hi He Hquery Hm).
  rewrite (texts_of_values items vals Hvals). cbn [fst]. split.
  - intros snippets ->. by rewrite strings_of_PStr.
  - intros i v Hi10 Hv Hnot.
    destruct (strings_of_not_string (take 10 vals) i v) as [msg ->]; [|done|eauto].
    by rewrite lookup_take_lt.
Qed.

Lemma only_first_ten_texts_joined_witness :
  fst (get_augmented_context (app_world tech_response eleven_matches)
                             tech_response app_start)
  = Ok (context_block ((λ t, "About " +:+ t) <$> take 10 twelve_tickers)).
Proof.
  destruct (only_first_ten_texts_joined (app_world tech_response eleven_matches)
              app_start tech_response tech_filter
              (PStr "which companies build rockets?") sample_vector eleven_matches
              (((λ t, sample_match t ("About " +:+ t)) <$> take 10 twelve_tickers)
               ++ [PDict [("id", PStr "ODD"); ("metadata", PDict [("text", PInt 7)])]])
              ((PStr <$> ((λ t, "About " +:+ t) <$> take 10 twelve_tickers))
               ++ [PInt 7]))
    as [Hjoin _];
    [reflexivity|reflexivity|reflexivity|reflexivity|reflexivity|reflexivity
    |repeat constructor|].
  apply Hjoin. reflexivity.
Defined.

(** ** The whole request *)

Lemma strings_of_length (vals : list pyval) (snippets : list string) :
  strings_of vals = Ok snippets → length snippets = length vals.
Proof.
  revert snippets. induction vals as [|v vals IH]; intros snippets.
  - by intros [= <-].
  - destruct v; cbn [strings_of]; try done.
    destruct (strings_of vals) as [ss|e]; [|done].
    intros [= <-]. cbn. by rewrite (IH ss).
Qed.

Ltac close_trace :=
  cbn beta iota; eexists;
  split; [cbn [calls]; rewrite <- ?app_assoc; reflexivity|];
  split; [cbn; by eexists|by intros ? [=]].

(** The calls of [get_augmented_context], whatever the world answers, and
    the shape of what it returns. *)
Lemma get_augmented_context_trace (w : World) (fr : pyval) (s : state) :
  match get_augmented_context w fr s with
  | (res, s') =>
      ∃ new,
        calls s' = calls s ++ new
        ∧ call_rank <$> new `prefix_of` [1; 2; 3]%nat
        ∧ ∀ context, res = Ok context →
            call_rank <$> new = [1; 2; 3]%nat
            ∧ (∃ q, getitem fr "question" = Ok q)
            ∧ ∃ snippets,
                (length snippets ≤ 10)%nat ∧ context = context_block snippets
  end.
Proof.
  unfold get_augmented_context, get_huggingface_embeddings.
  change (map_M _ ?items) with (map_M stored_text items).
  bind3. unfold external at 1.
  destruct (index w (calls s) INDEX_NAME); [|close_trace].
  bind3. unfold lift_result at 1.
  destruct (getitem fr "filter") as [f|e]; [|close_trace].
  bind3. unfold print at 1, modify at 1.
  bind3. unfold lift_result at 1.
  destruct (getitem fr "question") as [q|e]; [|close_trace].
  bind3. unfold external at 1. cbn [calls stdout].
  destruct (encode w _ _ q) as [vec|e]; [|close_trace].
  bind3. unfold external at 1. cbn [calls stdout].
  destruct (query w _ INDEX_NAME NAMESPACE vec f 10 true) as [top|e];
    [|close_trace].
  bind3. unfold print at 1, modify at 1. cbn [calls stdout].
  bind3. unfold lift_result at 1.
  destruct (getitem top "matches") as [m|e]; [|close_trace].
  bind3. unfold lift_result at 1.
  destruct (iterate m) as [items|e]; [|close_trace].
  bind3. rewrite collect_texts_run.
  destruct (texts_of items) as [texts|e]; [|close_trace].
  bind3. unfold lift_result at 1, str_join.
  destruct (strings_of (take 10 texts)) as [snippets|e] eqn:Hjoin; [|close_trace].
  cbn beta iota. unfold mret, M_ret. eexists.
  split; [cbn [calls]; rewrite <- ?app_assoc; reflexivity|].
  split; [cbn; by eexists|].
  intros context [= <-]. split; [reflexivity|]. split; [by eexists|].
  exists snippets. split; [|reflexivity].
  rewrite (strings_of_length _ _ Hjoin), length_take. lia.
Qed.

Lemma explore_trace (w : World) (data : pyval) (s : state) :
  match explore w data s with
  | (res, s') =>
      ∃ new,
        calls s' = calls s ++ new
        ∧ call_rank <$> new `prefix_of` [0; 1; 2; 3]%nat
        ∧ ∀ body status, res = Ok (body, status) →
            status = 200%nat
            ∧ call_rank <$> new = [0; 1; 2; 3]%nat
            ∧ ∃ snippets question,
                (length snippets ≤ 10)%nat
                ∧ body = PDict [("prompt",
                                 PStr (context_block snippets
                                       +:+ question_prompt question))]
  end.
Proof.
  unfold explore. bind3. unfold lift_result at 1.
  destruct (getitem data "user_query") as [uq|e].
  2:{ exists []. rewrite app_nil_r. split; [done|]. split; [by eexists|by intros ?? [=]]. }
  bind3. unfold external at 1.
  destruct (completion w (calls s) _ _) as [content|e].
  2:{ eexists [_]. split; [done|]. split; [cbn; by eexists|by intros ?? [=]]. }
  bind3. unfold lift_result at 1.
  destruct (json_loads w content) as [fr|e].
  2:{ eexists [_]. split; [done|]. split; [cbn; by eexists|by intros ?? [=]]. }
  bind3. unfold generate_prompt. bind3.
  match goal with |- context [get_augmented_context w fr ?s0] =>
    pose proof (get_augmented_context_trace w fr s0) as Htrace;
    destruct (get_augmented_context w fr s0) as [[context|e] s1]
  end; destruct Htrace as (new & Hcalls & Hprefix & Hok); cbn [calls] in Hcalls.
  2:{ exists (CallCompletion "llama3-70b-8192" (explore_prompt (format_value w uq)) :: new).
      rewrite Hcalls, <- app_assoc.
      split; [done|]. split; [|by intros ?? [=]].
      cbn [fmap list_fmap call_rank]. by apply prefix_cons. }
  destruct (Hok context eq_refl) as (Hranks & [q Hq] & snippets & Hlen & ->).
  unfold get_question. bind3. rewrite Hq. unfold lift_result at 1.
  unfold mbind, M_bind, mret, M_ret.
  exists (CallCompletion "llama3-70b-8192" (explore_prompt (format_value w uq)) :: new).
  rewrite Hcalls, <- app_assoc.
  split; [done|]. split; [cbn [fmap list_fmap call_rank]; by apply prefix_cons|].
  intros body status [= <- <-]. split; [done|].
  split; [cbn [fmap list_fmap call_rank]; by rewrite Hranks|].
  by exists snippets, (format_value w q).
Qed.

(** X16.  The handler calls its services in one order and at most once
    each: whatever the request and whatever the services answer, the calls
    of one request are an initial part of completion, index handle,
    embedding, query.  It never queries the index without the embedding,
    and never asks the model twice. *)
Theorem explore_call_order (w : World) (data : pyval) (s : state) :
  ∃ new,
    calls (snd (explore w data s)) = calls s ++ new
    ∧ call_rank <$> new `prefix_of` [0; 1; 2; 3]%nat.
Proof.
  pose proof (explore_trace w data s) as Htrace.
  destruct (explore w data s) as [res s'].
  destruct Htrace as (new & Hcalls & Hprefix & _). by exists new.
Qed.



(** X18.  A request that every service answers gets its prompt: with the
    key in the body, a completion that decodes to a result with a filter
    and a question, and an answer of the index whose matches carry texts,
    the response is 200 with the context block of the first ten texts
    followed by the question block of the residual question; the four
    calls are made in order and the filter and the answer are printed. *)
Theorem explore_success (w : World) (s : state) (d : dict)
    (uq fr f q vec top : pyval) (content : string) (items : list pyval)
    (texts : list string) :
  let s0 := app_with_call
              (CallCompletion "llama3-70b-8192" (explore_prompt (format_value w uq))) s in
  dict_lookup "user_query" d = Some uq →
  completion w (calls s) "llama3-70b-8192" (explore_prompt (format_value w uq))
  = Ok content →
  json_loads w content = Ok fr →
  getitem fr "filter" = Ok f →
  getitem fr "question" = Ok q →
  index w (calls s0) INDEX_NAME = Ok tt →
  encode w (calls s0 ++ [CallIndex INDEX_NAME]) MODEL_NAME q = Ok vec →
  query w (calls s0 ++ [CallIndex INDEX_NAME; CallEncode MODEL_NAME q])
        INDEX_NAME NAMESPACE vec f 10 true = Ok top →
  getitem top "matches" = Ok (PList items) →
  Forall2 (λ item text, text_of item = Ok (PStr text)) items texts →
  explore w (PDict d) s
  = (Ok (PDict [("prompt",
                 PStr (context_block (take 10 texts)
                       +:+ question_prompt (format_value w q)))], 200%nat),
     {| calls := calls s0 ++ [CallIndex INDEX_NAME; CallEncode MODEL_NAME q;
                               CallQuery INDEX_NAME NAMESPACE vec f 10 true];
        stdout := stdout s ++ [f; top] |}).
Proof.
  intros s0 Huq Hcompletion Hjson Hf Hq Hi He Hquery Hm Htexts.
  unfold explore. bind3. unfold lift_result at 1, getitem. rewrite Huq.
  bind3. unfold external at 1. rewrite Hcompletion.
  bind3. unfold lift_result at 1. rewrite Hjson.
  bind3. unfold generate_prompt. bind3.
  fold (app_with_call
          (CallCompletion "llama3-70b-8192" (explore_prompt (format_value w uq))) s).
  fold s0.
  rewrite (get_augmented_context_assembled w s0 fr f q vec top items
             Hf Hq Hi He Hquery Hm).
  rewrite (texts_of_strings items texts Htexts), <- fmap_take, strings_of_PStr.
  unfold get_question. bind3. rewrite Hq. reflexivity.
Qed.

Lemma explore_success_witness :
  fst (explore (app_world tech_response twelve_matches)
               (PDict [("user_query", PStr "rocket builders")]) app_start)
  = Ok (PDict [("prompt",
                PStr (context_block
                        ((λ t, "About " +:+ t) <$> take 10 twelve_tickers)
                      +:+ question_prompt "which companies build rockets?"))],
        200%nat).
Proof.
  rewrite (explore_success (app_world tech_response twelve_matches) app_start
             [("user_query", PStr "rocket builders")]
             (PStr "rocket builders") tech_response tech_filter
             (PStr "which companies build rockets?") sample_vector twelve_matches
             "extraction"
             ((λ t, sample_match t ("About " +:+ t)) <$> twelve_tickers)
             ((λ t, "About " +:+ t) <$> twelve_tickers));
    [reflexivity|reflexivity|reflexivity|reflexivity|reflexivity|reflexivity
    |reflexivity|reflexivity|reflexivity|reflexivity|repeat constructor].
Defined.

(** X19.  An extraction result with a filter but without the [question]
    key makes [get_augmented_context] raise [KeyError] after the filter is
    printed and before anything is embedded: the index handle is the only
    call. *)
Theorem missing_question_raises (w : World) (s : state) (d : dict) (f : pyval) :
  dict_lookup "filter" d = Some f →
  dict_lookup "question" d = None →
  index w (calls s) INDEX_NAME = Ok tt →
  get_augmented_context w (PDict d) s
  = (Err (KeyError "question"),
     {| calls := calls s ++ [CallIndex INDEX_NAME]; stdout := stdout s ++ [f] |}).
Proof.
  intros Hf Hq Hi. unfold get_augmented_context.
  bind3. unfold external at 1. rewrite Hi.
  bind3. unfold lift_result at 1, getitem at 1. rewrite Hf.
  bind3. unfold print at 1, modify at 1.
  bind3. unfold lift_result at 1, getitem at 1. by rewrite Hq.
Qed.

Lemma missing_question_raises_witness :
  get_augmented_context (app_world no_question_response sample_matches)
                        no_question_response app_start
  = (Err (KeyError "question"),
     {| calls := [CallIndex INDEX_NAME]; stdout := [tech_filter] |}).
Proof.
  apply (missing_question_raises (app_world no_question_response sample_matches)
           app_start [("filter", tech_filter)] tech_filter); reflexivity.
Defined.

End AppMoreFacts.
